(** * Robotic lawnmower simulator: a shallow embedding of
      [python/lawnmower_sim.py] and the properties of its engine.

    Python integers are unbounded, so every integer of the program is a [Z].
    A coordinate ([List[int]] read at indices 0 and 1, or [Tuple[int, int]])
    is a pair [(row, col)].  The two dictionaries of the class
    ([Dict[Tuple[int, int], bool]], every stored value being [True]) are
    insertion-ordered key lists.  Methods take the engine and give it back
    with their result.  The [messages] trace (only appended to by [log],
    never read by the engine) is not part of the state; the messages of
    each method are given apart, in [Log]. *)

From Stdlib Require Import String Ascii ZArith List Bool Lia Permutation.
From Stdlib Require Import DecimalString.
Import ListNotations.
Open Scope Z_scope.

(** ** Coordinates *)

Definition Coord : Type := (Z * Z)%type.

Definition coord_eqb (a b : Coord) : bool :=
  (fst a =? fst b) && (snd a =? snd b).

(** ** The dictionaries of the class *)

Module PyDict.

(** Keys in insertion order; a key occurs once. *)
Definition t : Type := list Coord.

Definition empty : t := [].

(** [k in d] *)
Definition contains (k : Coord) (d : t) : bool := existsb (coord_eqb k) d.

(** [d[k] = True]: a new key goes last, a known key keeps its place. *)
Definition set (k : Coord) (d : t) : t :=
  if contains k d then d else d ++ [k].

(** [len(d)] *)
Definition len (d : t) : Z := Z.of_nat (length d).

(** [list(d.keys())] *)
Definition keys (d : t) : list Coord := d.

End PyDict.

(** ** Engine state *)

Record LawnmowerSim : Type := mkSim {
  test_name : string;
  grid_height : Z;
  grid_width : Z;
  rock_locations : list Coord;
  valid_rocks : PyDict.t;
  total_grass_squares : Z;
  uncut_remaining : Z;
  all_grass_cut : bool;
  start_pos : Coord;
  last_pos : Coord;
  visited_cells : PyDict.t;
  number_visited_cells : Z;
  pos_history : list Coord;
  did_mower_crash : bool;
  crash_reason : string
}.

(** [0 <= row < grid_height and 0 <= col < grid_width] *)
Definition in_grid (grid_height grid_width : Z) (c : Coord) : bool :=
  (0 <=? fst c) && (fst c <? grid_height) &&
  ((0 <=? snd c) && (snd c <? grid_width)).

(** The loop of [__init__] over [rock_locations]. *)
Definition keep_rock (grid_height grid_width : Z) (d : PyDict.t) (r : Coord)
  : PyDict.t :=
  let '(row, col) := r in
  if in_grid grid_height grid_width (row, col)
  then PyDict.set (row, col) d
  else d.

Definition filter_rocks (grid_height grid_width : Z) (rocks : list Coord)
  : PyDict.t :=
  fold_left (keep_rock grid_height grid_width) rocks PyDict.empty.

(** [LawnmowerSim.__init__] *)
Definition __init__ (test_name : string) (grid_height grid_width : Z)
    (rock_locations : list Coord) (start_pos : Coord) : LawnmowerSim :=
  let valid_rocks := filter_rocks grid_height grid_width rock_locations in
  let total_grass_squares :=
    grid_width * grid_height - PyDict.len valid_rocks in
  let uncut_remaining := total_grass_squares - 1 in
  let self_start_pos :=
    if in_grid grid_height grid_width start_pos
    then (fst start_pos, snd start_pos)
    else (0, 0) in
  {| test_name := test_name;
     grid_height := grid_height;
     grid_width := grid_width;
     rock_locations := rock_locations;
     valid_rocks := valid_rocks;
     total_grass_squares := total_grass_squares;
     uncut_remaining := uncut_remaining;
     all_grass_cut := false;
     start_pos := self_start_pos;
     last_pos := (fst self_start_pos, snd self_start_pos);
     visited_cells :=
       PyDict.set (fst start_pos, snd start_pos) PyDict.empty;
     number_visited_cells := 1;
     pos_history := [self_start_pos];
     did_mower_crash := false;
     crash_reason := "None" |}.

(** ** [move] *)

(** Lines 135-140: the position is updated and recorded first. *)
Definition shift (move : string) (p : Coord) : Coord :=
  if (move =? "up")%string then (fst p - 1, snd p)
  else if (move =? "down")%string then (fst p + 1, snd p)
  else if (move =? "left")%string then (fst p, snd p - 1)
  else if (move =? "right")%string then (fst p, snd p + 1)
  else p.

Definition record_position (self : LawnmowerSim) (p : Coord) : LawnmowerSim :=
  {| test_name := test_name self;
     grid_height := grid_height self;
     grid_width := grid_width self;
     rock_locations := rock_locations self;
     valid_rocks := valid_rocks self;
     total_grass_squares := total_grass_squares self;
     uncut_remaining := uncut_remaining self;
     all_grass_cut := all_grass_cut self;
     start_pos := start_pos self;
     last_pos := p;
     visited_cells := visited_cells self;
     number_visited_cells := number_visited_cells self;
     pos_history := pos_history self ++ [(fst p, snd p)];
     did_mower_crash := did_mower_crash self;
     crash_reason := crash_reason self |}.

(** Lines 149-150 and 157-158. *)
Definition record_crash (self : LawnmowerSim) (reason : string)
  : LawnmowerSim :=
  {| test_name := test_name self;
     grid_height := grid_height self;
     grid_width := grid_width self;
     rock_locations := rock_locations self;
     valid_rocks := valid_rocks self;
     total_grass_squares := total_grass_squares self;
     uncut_remaining := uncut_remaining self;
     all_grass_cut := all_grass_cut self;
     start_pos := start_pos self;
     last_pos := last_pos self;
     visited_cells := visited_cells self;
     number_visited_cells := number_visited_cells self;
     pos_history := pos_history self;
     did_mower_crash := true;
     crash_reason := reason |}.

(** Lines 162-167. *)
Definition record_visit (self : LawnmowerSim) : LawnmowerSim :=
  let visited_cells :=
    PyDict.set (fst (last_pos self), snd (last_pos self))
               (visited_cells self) in
  let number_visited_cells := PyDict.len visited_cells in
  let uncut_remaining := total_grass_squares self - number_visited_cells in
  {| test_name := test_name self;
     grid_height := grid_height self;
     grid_width := grid_width self;
     rock_locations := rock_locations self;
     valid_rocks := valid_rocks self;
     total_grass_squares := total_grass_squares self;
     uncut_remaining := uncut_remaining;
     all_grass_cut := uncut_remaining =? 0;
     start_pos := start_pos self;
     last_pos := last_pos self;
     visited_cells := visited_cells;
     number_visited_cells := number_visited_cells;
     pos_history := pos_history self;
     did_mower_crash := did_mower_crash self;
     crash_reason := crash_reason self |}.

(** Lines 146-171: rock check, then fence check, else a legal cell. *)
Definition check_crash (self : LawnmowerSim) : LawnmowerSim :=
  if PyDict.contains (last_pos self) (valid_rocks self)
  then record_crash self "Crashed into Rock"
  else if negb (in_grid (grid_height self) (grid_width self) (last_pos self))
  then record_crash self "Crashed into Fence"
  else record_visit self.

(** [LawnmowerSim.move]: the new state and the returned boolean. *)
Definition move (self : LawnmowerSim) (move : string) : LawnmowerSim * bool :=
  let self := record_position self (shift move (last_pos self)) in
  let self := check_crash self in
  if did_mower_crash self then (self, false) else (self, true).

(** ** [execute_path] *)

(** [str.lower] on the ASCII letters; other characters are kept (none of
    them lowers to a letter of up, down, left or right). *)
Definition lower_char (c : ascii) : ascii :=
  let n := nat_of_ascii c in
  if ((65 <=? n) && (n <=? 90))%nat then ascii_of_nat (n + 32) else c.

Fixpoint lower (s : string) : string :=
  match s with
  | EmptyString => EmptyString
  | String c s' => String (lower_char c) (lower s')
  end.

(** The [for] loop of [execute_path], with its [break]. *)
Fixpoint run_path (self : LawnmowerSim) (path : list string) : LawnmowerSim :=
  match path with
  | [] => self
  | mv :: rest =>
      let '(self', ok) := move self (lower mv) in
      if ok then run_path self' rest else self'
  end.

(** The state after each call of [move] made by that loop, in order. *)
Fixpoint path_states (self : LawnmowerSim) (path : list string)
  : list LawnmowerSim :=
  match path with
  | [] => []
  | mv :: rest =>
      let '(self', ok) := move self (lower mv) in
      self' :: (if ok then path_states self' rest else [])
  end.

Module SimStatus.

(** The dictionary returned by [execute_path] (without [messages]). *)
Record t : Type := mk {
  test_name : string;
  grid_width : Z;
  grid_height : Z;
  rock_locations : list Coord;
  valid_rocks : list Coord;
  start_pos : Coord;
  total_grass_squares : Z;
  all_grass_cut : bool;
  uncut_grass_remaining : Z;
  did_mower_crash : bool;
  crash_reason : string;
  pos_history : list Coord;
  visited_cells : list Coord;
  last_pos : Coord
}.

End SimStatus.

Definition sim_status (self : LawnmowerSim) : SimStatus.t :=
  {| SimStatus.test_name := test_name self;
     SimStatus.grid_width := grid_width self;
     SimStatus.grid_height := grid_height self;
     SimStatus.rock_locations := rock_locations self;
     SimStatus.valid_rocks := PyDict.keys (valid_rocks self);
     SimStatus.start_pos := start_pos self;
     SimStatus.total_grass_squares := total_grass_squares self;
     SimStatus.all_grass_cut := all_grass_cut self;
     SimStatus.uncut_grass_remaining := uncut_remaining self;
     SimStatus.did_mower_crash := did_mower_crash self;
     SimStatus.crash_reason := crash_reason self;
     SimStatus.pos_history := pos_history self;
     SimStatus.visited_cells := PyDict.keys (visited_cells self);
     SimStatus.last_pos := last_pos self |}.

(** [LawnmowerSim.execute_path]: the engine afterwards and the record
    returned. *)
Definition execute_path (self : LawnmowerSim) (path : list string)
  : LawnmowerSim * SimStatus.t :=
  let self := run_path self path in
  (self, sim_status self).

(** * The message trace

    [log] appends its message to [self.messages] (and prints it).  The
    messages that [__init__], [move] and [execute_path] append are given
    here from the engine they are called on: [self.messages] after a call is
    [self.messages] before it followed by these. *)

Module Log.

Local Open Scope string_scope.

(** [str] of an integer, of a boolean, and of a list of two integers (a
    rock, a start coordinate, [last_pos]), as an f-string prints them. *)
Definition py_int (z : Z) : string := NilZero.string_of_int (Z.to_int z).

Definition py_bool (b : bool) : string := if b then "True" else "False".

Definition py_list (c : Coord) : string :=
  "[" ++ py_int (fst c) ++ ", " ++ py_int (snd c) ++ "]".

(** The line feed that starts some messages. *)
Definition nl : string := String "010" "".

(** What every message starts with. *)
Definition tag (test_name : string) : string := "--- " ++ test_name ++ ": ".

(** Line 77. *)
Definition rock_warning (test_name : string) (h w : Z) (r : Coord) : string :=
  tag test_name ++ "warning: Rock at " ++ py_list r ++ " is outside the "
  ++ py_int h ++ " x " ++ py_int w ++ " lawn. Ignoring.".

(** The messages of the loop of [__init__] over [rock_locations]. *)
Definition rock_warnings (test_name : string) (h w : Z) (rocks : list Coord)
  : list string :=
  fold_left
    (fun msgs r =>
       let '(row, col) := r in
       if in_grid h w (row, col) then msgs
       else (msgs ++ [rock_warning test_name h w r])%list)
    rocks [].

(** Line 78. *)
Definition rocks_summary (test_name : string) (valid disregarded : Z)
  : string :=
  tag test_name ++ py_int valid
  ++ " valid Rock positions defined inside grid. " ++ py_int disregarded
  ++ " Rocks outside grid disregarded".

(** The messages of [__init__], in order. *)
Definition init_messages (test_name : string) (grid_height grid_width : Z)
    (rock_locations : list Coord) (start_pos : Coord) : list string :=
  let self :=
    __init__ test_name grid_height grid_width rock_locations start_pos in
  let t := tag test_name in
  List.concat [
  [ t ++ "Simulator Config start";
    t ++ "Initialise Grid " ++ py_int grid_height ++ " x "
      ++ py_int grid_width ];
  rock_warnings test_name grid_height grid_width rock_locations;
     [ rocks_summary test_name (PyDict.len (valid_rocks self))
         (Z.of_nat (length rock_locations) - PyDict.len (valid_rocks self));
       t ++ "Initialize Total Grass squares "
         ++ py_int (total_grass_squares self);
       t ++ "Initialize Remaining Uncut " ++ py_int (uncut_remaining self);
       t ++ "Initialize All Grass Cut status "
         ++ py_bool (all_grass_cut self) ];
     (if in_grid grid_height grid_width start_pos then []
      else [ t ++ "WARNING: start pos at " ++ py_list start_pos
               ++ " is outside the " ++ py_int grid_height ++ " x "
               ++ py_int grid_width
               ++ " lawn. Resetting to top left [0,0]" ]);
     [ t ++ "Initialise start position at " ++ py_list start_pos;
       t ++ "Initialise Number of Cells Visited "
         ++ py_int (number_visited_cells self)
         ++ " (start position counts 1 already)";
       t ++ "Initialise Number of Moves 0";
       t ++ "Initialise Crash Status " ++ py_bool (did_mower_crash self)
         ++ " for Reason " ++ crash_reason self ] ].

(** The messages of one call of [move], in order. *)
Definition move_messages (self : LawnmowerSim) (move : string)
  : list string :=
  let t := tag (test_name self) in
  let moved := record_position self (shift move (last_pos self)) in
  let checked := check_crash moved in
  List.concat [
  [ t ++ "Current Position " ++ py_list (last_pos self);
    t ++ "execute move " ++ move;
    t ++ "Last Position " ++ py_list (last_pos moved);
    t ++ "check if crashed" ];
     (if PyDict.contains (last_pos moved) (valid_rocks moved)
      then [ t ++ "rock crash!";
             t ++ "Termination: " ++ crash_reason checked ]
      else if negb (in_grid (grid_height moved) (grid_width moved)
                            (last_pos moved))
      then [ t ++ "fence crash!";
             t ++ "Termination: " ++ crash_reason checked ]
      else [ t ++ "no crash";
             t ++ "number_visited_cells: "
               ++ py_int (number_visited_cells checked);
             t ++ "remaining uncut: " ++ py_int (uncut_remaining checked);
             if all_grass_cut checked
             then t ++ "All Gras Cut"
             else t ++ "Still Gras to Cut" ]);
     [ if did_mower_crash checked
       then t ++ "Move Failed due crash"
       else t ++ "Move OK" ] ].

(** The messages of the loop of [execute_path], from the index [step]. *)
Fixpoint loop_messages (self : LawnmowerSim) (path : list string) (step : Z)
  : list string :=
  match path with
  | [] => []
  | mv :: rest =>
      let '(self', ok) := move self (lower mv) in
      List.concat [
        [ nl ++ tag (test_name self) ++ "Move index " ++ py_int step ];
        move_messages self (lower mv);
        if ok then loop_messages self' rest (step + 1) else [] ]
  end.

(** The messages of [execute_path], in order. *)
Definition execute_path_messages (self : LawnmowerSim) (path : list string)
  : list string :=
  let final := run_path self path in
  let t := tag (test_name final) in
  List.concat [
    loop_messages self path 0;
    [ if negb (did_mower_crash final)
      then nl ++ t ++ "Simulator Success. All Moves done"
      else nl ++ t ++ "Simulator Fail due Crash. Move abort";
      t ++ "Output Sim Status Structure" ] ].

(** [sim_status["messages"]] after [LawnmowerSim(...)] and one call of
    [execute_path]. *)
Definition run_messages (test_name : string) (grid_height grid_width : Z)
    (rock_locations : list Coord) (start_pos : Coord) (path : list string)
  : list string :=
  (init_messages test_name grid_height grid_width rock_locations start_pos
   ++ execute_path_messages
        (__init__ test_name grid_height grid_width rock_locations start_pos)
        path)%list.

(** A message that starts with the tag, after a line feed or not. *)
Definition tagged (test_name : string) (m : string) : Prop :=
  exists rest, m = tag test_name ++ rest \/ m = nl ++ tag test_name ++ rest.

(** A message that starts with the tag itself. *)
Definition plain (test_name : string) (m : string) : Prop :=
  exists rest, m = tag test_name ++ rest.

(** The message that opens the move of index [i]. *)
Definition move_index_message (test_name : string) (i : Z) : string :=
  nl ++ tag test_name ++ "Move index " ++ py_int i.

(** A message whose first character is a line feed. *)
Definition line_fed (m : string) : bool :=
  match m with
  | String c _ => Ascii.eqb c "010"
  | EmptyString => false
  end.

End Log.

(** * [python/lawnmower_cli_api.py]: the parser of definition files

    A Python [str] is a [string], one [ascii] for each character: the
    characters below U+0100.  [ast.literal_eval], which is not code of this
    program, is a parameter: it gives a value, or raises. *)

Module PyStr.

(** The line boundaries of [str.splitlines] among these characters. *)
Definition is_linebreak (c : ascii) : bool :=
  let n := nat_of_ascii c in
  ((10 <=? n) && (n <=? 13) || (28 <=? n) && (n <=? 30) || (n =? 133))%nat.

(** The characters that [str.strip] removes: those of [str.isspace]. *)
Definition is_space (c : ascii) : bool :=
  let n := nat_of_ascii c in
  ((9 <=? n) && (n <=? 13) || (28 <=? n) && (n <=? 32) || (n =? 133)
   || (n =? 160))%nat.

(** [s.splitlines()], the line being read given first; a carriage return
    followed by a line feed is one boundary, and no empty line is added
    after the last boundary. *)
Fixpoint splitlines_from (line : string) (s : string) : list string :=
  match s with
  | EmptyString => if (line =? "")%string then [] else [line]
  | String c rest =>
      if is_linebreak c then
        line ::
        match rest with
        | String c2 rest2 =>
            if ((nat_of_ascii c =? 13) && (nat_of_ascii c2 =? 10))%nat
            then splitlines_from "" rest2
            else splitlines_from "" rest
        | EmptyString => []
        end
      else splitlines_from (line ++ String c "") rest
  end.

Definition splitlines (s : string) : list string := splitlines_from "" s.

(** [c in s] *)
Fixpoint has_char (c : ascii) (s : string) : bool :=
  match s with
  | EmptyString => false
  | String c' rest => Ascii.eqb c' c || has_char c rest
  end.

(** [s.split(sep)] for a separator of one character, the part being read
    given first. *)
Fixpoint split_from (sep : ascii) (part : string) (s : string) : list string :=
  match s with
  | EmptyString => [part]
  | String c rest =>
      if Ascii.eqb c sep
      then part :: split_from sep "" rest
      else split_from sep (part ++ String c "") rest
  end.

Definition split (sep : ascii) (s : string) : list string :=
  split_from sep "" s.

Fixpoint lstrip (s : string) : string :=
  match s with
  | EmptyString => EmptyString
  | String c rest => if is_space c then lstrip rest else s
  end.

Fixpoint rstrip (s : string) : string :=
  match s with
  | EmptyString => EmptyString
  | String c rest =>
      match rstrip rest with
      | EmptyString => if is_space c then EmptyString else String c EmptyString
      | r => String c r
      end
  end.

(** [s.strip()] *)
Definition strip (s : string) : string := rstrip (lstrip s).

End PyStr.

(** The dictionary [params]: keys in insertion order; assigning to a key
    that is there replaces its value where it stands. *)
Module PyParams.

Fixpoint set {V : Type} (k : string) (v : V) (d : list (string * V))
  : list (string * V) :=
  match d with
  | [] => [(k, v)]
  | (k', v') :: rest =>
      if (k' =? k)%string then (k, v) :: rest else (k', v') :: set k v rest
  end.

Fixpoint get {V : Type} (k : string) (d : list (string * V)) : option V :=
  match d with
  | [] => None
  | (k', v') :: rest => if (k' =? k)%string then Some v' else get k rest
  end.

End PyParams.

(** What a call of [parse_text_file] comes to: the dictionary returned, the
    [ValueError] of [key, val = line.split('=')] when the line does not
    split in two, or the exception of [ast.literal_eval]. *)
Inductive ParseResult (V : Type) : Type :=
| Parsed (params : list (string * V))
| UnpackError
| LiteralEvalError.

Arguments Parsed {V} params.
Arguments UnpackError {V}.
Arguments LiteralEvalError {V}.

Section ParseTextFile.

Variable V : Type.
Variable literal_eval : string -> option V.

(** The loop of [parse_text_file] over the lines. *)
Fixpoint parse_lines (lines : list string) (params : list (string * V))
  : ParseResult V :=
  match lines with
  | [] => Parsed params
  | line :: rest =>
      if PyStr.has_char "=" line then
        match PyStr.split "=" line with
        | [key; val] =>
            match literal_eval (PyStr.strip val) with
            | Some v => parse_lines rest (PyParams.set (PyStr.strip key) v params)
            | None => LiteralEvalError
            end
        | _ => UnpackError
        end
      else parse_lines rest params
  end.

(** [parse_text_file] *)
Definition parse_text_file (content : string) : ParseResult V :=
  parse_lines (PyStr.splitlines content) [].

End ParseTextFile.

(** How many times a character occurs in a string. *)
Fixpoint count_char (c : ascii) (s : string) : nat :=
  match s with
  | EmptyString => 0%nat
  | String c' rest => ((if Ascii.eqb c' c then 1 else 0) + count_char c rest)%nat
  end.

(** * Notions used to state the properties *)

(** An engine: what [__init__] builds, and what calls of [move] make of
    it. *)
Inductive Reachable : LawnmowerSim -> Prop :=
| reach_init (name : string) (h w : Z) (rocks : list Coord) (start : Coord) :
    Reachable (__init__ name h w rocks start)
| reach_move (s : LawnmowerSim) (mv : string) :
    Reachable s -> Reachable (fst (move s mv)).

(** What holds of every engine. *)
Record Sound (s : LawnmowerSim) : Prop := {
  sound_rocks :
    valid_rocks s =
      filter_rocks (grid_height s) (grid_width s) (rock_locations s);
  sound_total :
    total_grass_squares s =
      grid_width s * grid_height s - PyDict.len (valid_rocks s);
  sound_reason : did_mower_crash s = false -> crash_reason s = "None"%string;
  sound_history : exists h, pos_history s = h ++ [last_pos s];
  sound_sizes : (length (visited_cells s) <= length (pos_history s))%nat
}.

(** The tokens that [move] knows. *)
Definition is_direction (mv : string) : Prop :=
  mv = "up"%string \/ mv = "down"%string \/
  mv = "left"%string \/ mv = "right"%string.

(** The unit offset of a direction: up is row-1, down is row+1, left is
    col-1, right is col+1. *)
Definition unit_offset (mv : string) : Coord :=
  if (mv =? "up")%string then (-1, 0)
  else if (mv =? "down")%string then (1, 0)
  else if (mv =? "left")%string then (0, -1)
  else if (mv =? "right")%string then (0, 1)
  else (0, 0).

(** The candidate next coordinate: the position plus the unit offset. *)
Definition candidate (p : Coord) (mv : string) : Coord :=
  (fst p + fst (unit_offset mv), snd p + snd (unit_offset mv)).

(** The loop of [execute_path] makes no legal move: the path is empty, or
    its first move returns [False]. *)
Definition no_legal_move (s : LawnmowerSim) (path : list string) : Prop :=
  match path with
  | [] => True
  | mv :: _ => snd (move s (lower mv)) = false
  end.

(** A list in its order, each coordinate kept where it first occurs. *)
Fixpoint first_occurrences (l : list Coord) : list Coord :=
  match l with
  | [] => []
  | x :: xs => x :: filter (fun y => negb (coord_eqb x y)) (first_occurrences xs)
  end.

(** The cells of a grid, row by row. *)
Definition rows (n : Z) : list Z := map Z.of_nat (seq 0 (Z.to_nat n)).

Definition grid_cells (h w : Z) : list Coord := list_prod (rows h) (rows w).

(** The mowable squares: the cells of the grid that are not valid rocks. *)
Definition mowable_cells (h w : Z) (rocks : PyDict.t) : list Coord :=
  filter (fun c => negb (PyDict.contains c rocks)) (grid_cells h w).

(** What holds of an engine, and goes on holding, when the start coordinate
    is on the grid and is not a valid rock. *)
Record Tidy (h w : Z) (rocks : PyDict.t) (s : LawnmowerSim) : Prop := {
  tidy_height : grid_height s = h;
  tidy_width : grid_width s = w;
  tidy_rocks : valid_rocks s = rocks;
  tidy_total : total_grass_squares s = w * h - PyDict.len rocks;
  tidy_visited :
    forall c, In c (visited_cells s) ->
              in_grid h w c = true /\ PyDict.contains c rocks = false;
  tidy_nodup : NoDup (visited_cells s);
  tidy_uncut :
    uncut_remaining s = total_grass_squares s - PyDict.len (visited_cells s)
}.

(** Two coordinates one unit step apart, or equal. *)
Definition near (a b : Coord) : Prop :=
  Z.abs (fst b - fst a) + Z.abs (snd b - snd a) <= 1.

(** A list of coordinates in which each entry is near the one before. *)
Fixpoint is_walk (l : list Coord) : Prop :=
  match l with
  | a :: t => match t with b :: _ => near a b | [] => True end /\ is_walk t
  | [] => True
  end.

(** How many tokens of a path are, once lowered, the token [t]. *)
Definition count_token (t : string) (path : list string) : Z :=
  Z.of_nat (length (filter (String.eqb t) (map lower path))).

(** * Scenarios 02 to 04 of [lawnmower_sim_test.py]

    (Scenario 01 is [scenario_A_result] below.) *)

Example test_scenario_02_fence_crash :
  let status :=
    snd (execute_path (__init__ "FenceTest" 5 5 [] (0, 0)) ["up"%string]) in
  SimStatus.did_mower_crash status = true /\
  SimStatus.crash_reason status = "Crashed into Fence"%string.
Proof. vm_compute. repeat split. Qed.

Example test_scenario_03_rock_crash :
  let status :=
    snd (execute_path (__init__ "RockTest" 5 5 [(1, 1)] (0, 0))
                      ["down"; "right"]%string) in
  SimStatus.did_mower_crash status = true /\
  SimStatus.crash_reason status = "Crashed into Rock"%string.
Proof. vm_compute. repeat split. Qed.

Example test_scenario_04_incomplete_cut :
  let status :=
    snd (execute_path (__init__ "IncompleteTest" 3 2 [(1, 1); (0, 1)] (0, 0))
                      ["down"%string]) in
  SimStatus.all_grass_cut status = false /\
  SimStatus.uncut_grass_remaining status = 2.
Proof. vm_compute. repeat split. Qed.

(** * Properties of the engine *)

(** ** Coordinates and dictionaries *)

Lemma coord_eqb_eq (a b : Coord) : coord_eqb a b = true <-> a = b.
Proof.
  destruct a as [a1 a2], b as [b1 b2]; unfold coord_eqb; simpl.
  rewrite andb_true_iff, !Z.eqb_eq. split.
  - intros [-> ->]; reflexivity.
  - intros H; injection H; auto.
Qed.

Lemma pair_eta (p : Coord) : (fst p, snd p) = p.
Proof. destruct p; reflexivity. Qed.

Lemma contains_In (k : Coord) (d : PyDict.t) :
  PyDict.contains k d = true <-> In k d.
Proof.
  unfold PyDict.contains. rewrite existsb_exists. split.
  - intros [x [Hx Hk]]. apply coord_eqb_eq in Hk. subst; assumption.
  - intros H. exists k. split; [assumption | apply coord_eqb_eq; reflexivity].
Qed.

Lemma contains_not_In (k : Coord) (d : PyDict.t) :
  PyDict.contains k d = false <-> ~ In k d.
Proof.
  rewrite <- contains_In. destruct (PyDict.contains k d); split; intros H;
    try discriminate; try reflexivity; try (intros ?; discriminate).
  exfalso; apply H; reflexivity.
Qed.

Lemma set_In (k c : Coord) (d : PyDict.t) :
  In c (PyDict.set k d) <-> c = k \/ In c d.
Proof.
  unfold PyDict.set. destruct (PyDict.contains k d) eqn:E.
  - apply contains_In in E. split; [auto | intros [-> | H]; assumption].
  - rewrite in_app_iff. simpl. split.
    + intros [H | [H | []]]; auto.
    + intros [H | H]; auto.
Qed.

Lemma set_NoDup (k : Coord) (d : PyDict.t) :
  NoDup d -> NoDup (PyDict.set k d).
Proof.
  intros Hd. unfold PyDict.set. destruct (PyDict.contains k d) eqn:E; trivial.
  apply contains_not_In in E.
  apply NoDup_rev in Hd. rewrite <- (rev_involutive (d ++ [k])).
  apply NoDup_rev. rewrite rev_app_distr. simpl. constructor; trivial.
  rewrite <- in_rev. assumption.
Qed.

Lemma set_length (k : Coord) (d : PyDict.t) :
  (length d <= length (PyDict.set k d) <= S (length d))%nat.
Proof.
  unfold PyDict.set. destruct (PyDict.contains k d).
  - lia.
  - rewrite length_app. simpl. lia.
Qed.

Lemma in_grid_spec (h w : Z) (c : Coord) :
  in_grid h w c = true <-> (0 <= fst c < h) /\ (0 <= snd c < w).
Proof.
  unfold in_grid. rewrite !andb_true_iff, !Z.leb_le, !Z.ltb_lt. tauto.
Qed.

(** ** One call of [move] *)

(** The three ways a call of [move] can go, by the coordinate it computes. *)
Lemma move_rock (s : LawnmowerSim) (mv : string) :
  PyDict.contains (shift mv (last_pos s)) (valid_rocks s) = true ->
  move s mv =
    (record_crash (record_position s (shift mv (last_pos s)))
                  "Crashed into Rock", false).
Proof.
  intros H. unfold move, check_crash. simpl. rewrite H. reflexivity.
Qed.

Lemma move_fence (s : LawnmowerSim) (mv : string) :
  PyDict.contains (shift mv (last_pos s)) (valid_rocks s) = false ->
  in_grid (grid_height s) (grid_width s) (shift mv (last_pos s)) = false ->
  move s mv =
    (record_crash (record_position s (shift mv (last_pos s)))
                  "Crashed into Fence", false).
Proof.
  intros H1 H2. unfold move, check_crash. simpl. rewrite H1, H2. reflexivity.
Qed.

Lemma move_legal (s : LawnmowerSim) (mv : string) :
  PyDict.contains (shift mv (last_pos s)) (valid_rocks s) = false ->
  in_grid (grid_height s) (grid_width s) (shift mv (last_pos s)) = true ->
  move s mv =
    (record_visit (record_position s (shift mv (last_pos s))),
     negb (did_mower_crash s)).
Proof.
  intros H1 H2. unfold move, check_crash. simpl. rewrite H1, H2. simpl.
  destruct (did_mower_crash s); reflexivity.
Qed.

(** Case analysis on a call of [move], rewriting it to one of the above. *)
Ltac move_cases s mv :=
  let Hr := fresh "Hrock" in
  let Hg := fresh "Hgrid" in
  destruct (PyDict.contains (shift mv (last_pos s)) (valid_rocks s)) eqn:Hr;
  [ rewrite (move_rock s mv Hr)
  | destruct (in_grid (grid_height s) (grid_width s) (shift mv (last_pos s)))
      eqn:Hg;
    [ rewrite (move_legal s mv Hr Hg) | rewrite (move_fence s mv Hr Hg) ] ].

Lemma move_returns (s : LawnmowerSim) (mv : string) :
  snd (move s mv) = negb (did_mower_crash (fst (move s mv))).
Proof. move_cases s mv; reflexivity. Qed.

(** What no call of [move] changes. *)
Lemma move_frame (s : LawnmowerSim) (mv : string) :
  let s' := fst (move s mv) in
  test_name s' = test_name s /\
  grid_height s' = grid_height s /\
  grid_width s' = grid_width s /\
  rock_locations s' = rock_locations s /\
  valid_rocks s' = valid_rocks s /\
  total_grass_squares s' = total_grass_squares s /\
  start_pos s' = start_pos s.
Proof. move_cases s mv; simpl; repeat split. Qed.

Lemma move_crash_mono (s : LawnmowerSim) (mv : string) :
  did_mower_crash s = true -> did_mower_crash (fst (move s mv)) = true.
Proof. intros H. move_cases s mv; simpl; trivial. Qed.

(** ** The loop of [execute_path] *)

Lemma run_path_cons (s : LawnmowerSim) (mv : string) (rest : list string) :
  run_path s (mv :: rest) =
    if did_mower_crash (fst (move s (lower mv)))
    then fst (move s (lower mv))
    else run_path (fst (move s (lower mv))) rest.
Proof.
  simpl. pose proof (move_returns s (lower mv)) as H.
  destruct (move s (lower mv)) as [s' ok]. simpl in *. subst ok.
  destruct (did_mower_crash s'); reflexivity.
Qed.

Lemma path_states_cons (s : LawnmowerSim) (mv : string) (rest : list string) :
  path_states s (mv :: rest) =
    fst (move s (lower mv)) ::
    (if did_mower_crash (fst (move s (lower mv)))
     then []
     else path_states (fst (move s (lower mv))) rest).
Proof.
  simpl. pose proof (move_returns s (lower mv)) as H.
  destruct (move s (lower mv)) as [s' ok]. simpl in *. subst ok.
  destruct (did_mower_crash s'); reflexivity.
Qed.

Lemma last_cons_shift {A : Type} (l : list A) (a d : A) :
  last (a :: l) d = last l a.
Proof.
  revert a d. induction l as [| b l IH]; intros a d; [reflexivity |].
  change (last (a :: b :: l) d) with (last (b :: l) d).
  rewrite (IH b d), (IH b a). reflexivity.
Qed.

(** The final state is the last state of the trace. *)
Lemma run_path_last (path : list string) (s : LawnmowerSim) :
  run_path s path = last (path_states s path) s.
Proof.
  revert s. induction path as [| mv rest IH]; intros s; [reflexivity |].
  rewrite run_path_cons, path_states_cons.
  destruct (did_mower_crash (fst (move s (lower mv)))) eqn:E; [reflexivity |].
  rewrite IH, last_cons_shift. reflexivity.
Qed.

(** A property kept by every call of [move] holds all along a path. *)
Lemma path_states_inv (P : LawnmowerSim -> Prop) :
  (forall s mv, P s -> P (fst (move s mv))) ->
  forall path s, P s -> Forall P (path_states s path).
Proof.
  intros Hstep path. induction path as [| mv rest IH]; intros s Hs.
  - constructor.
  - rewrite path_states_cons. constructor; [apply Hstep; assumption |].
    destruct (did_mower_crash (fst (move s (lower mv)))); [constructor |].
    apply IH, Hstep, Hs.
Qed.

Lemma run_path_inv (P : LawnmowerSim -> Prop) :
  (forall s mv, P s -> P (fst (move s mv))) ->
  forall path s, P s -> P (run_path s path).
Proof.
  intros Hstep path. induction path as [| mv rest IH]; intros s Hs.
  - assumption.
  - rewrite run_path_cons.
    destruct (did_mower_crash (fst (move s (lower mv))));
      [| apply IH]; apply Hstep, Hs.
Qed.

(** ** Engines: what can be built by [__init__] and driven by [move] *)

Lemma reachable_run_path (path : list string) (s : LawnmowerSim) :
  Reachable s -> Reachable (run_path s path).
Proof. apply run_path_inv. intros; apply reach_move; assumption. Qed.

(** The rock filter, for any dictionary the loop starts from. *)
Lemma keep_rock_In (h w : Z) (rocks : list Coord) (d : PyDict.t) (c : Coord) :
  In c (fold_left (keep_rock h w) rocks d) <->
  In c d \/ (In c rocks /\ in_grid h w c = true).
Proof.
  revert d. induction rocks as [| r rocks IH]; intros d; simpl.
  - tauto.
  - rewrite IH. unfold keep_rock. destruct r as [row col].
    destruct (in_grid h w (row, col)) eqn:E.
    + rewrite set_In. split.
      * intros [[-> | H] | H]; [right; split; auto | tauto | tauto].
      * intros [H | [[<- | H] Hc]]; tauto.
    + split; [tauto |]. intros [H | [[<- | H] Hc]]; [tauto | | tauto].
      congruence.
Qed.

Lemma keep_rock_NoDup (h w : Z) (rocks : list Coord) (d : PyDict.t) :
  NoDup d -> NoDup (fold_left (keep_rock h w) rocks d).
Proof.
  revert d. induction rocks as [| r rocks IH]; intros d Hd; simpl; trivial.
  apply IH. unfold keep_rock. destruct r as [row col].
  destruct (in_grid h w (row, col)); [apply set_NoDup |]; assumption.
Qed.

Lemma keep_rock_length (h w : Z) (rocks : list Coord) (d : PyDict.t) :
  (length (fold_left (keep_rock h w) rocks d) <= length d + length rocks)%nat.
Proof.
  revert d. induction rocks as [| r rocks IH]; intros d; simpl; [lia |].
  specialize (IH (keep_rock h w d r)).
  assert (length (keep_rock h w d r) <= S (length d))%nat; [| lia].
  unfold keep_rock. destruct r as [row col].
  destruct (in_grid h w (row, col)); [apply set_length | lia].
Qed.

Lemma filter_rocks_In (h w : Z) (rocks : list Coord) (c : Coord) :
  In c (filter_rocks h w rocks) <-> In c rocks /\ in_grid h w c = true.
Proof.
  unfold filter_rocks. rewrite keep_rock_In. simpl. tauto.
Qed.

Lemma filter_rocks_NoDup (h w : Z) (rocks : list Coord) :
  NoDup (filter_rocks h w rocks).
Proof. apply keep_rock_NoDup. constructor. Qed.

Lemma init_sound (name : string) (h w : Z) (rocks : list Coord)
    (start : Coord) :
  Sound (__init__ name h w rocks start).
Proof.
  constructor; simpl; try reflexivity.
  exists []. simpl. rewrite !pair_eta. reflexivity.
Qed.

Lemma move_sound (s : LawnmowerSim) (mv : string) :
  Sound s -> Sound (fst (move s mv)).
Proof.
  intros [Hr Ht Hn [h Hh] Hz].
  move_cases s mv; constructor; simpl; trivial; try discriminate;
    try (eexists; rewrite pair_eta; reflexivity);
    try (rewrite length_app; simpl; lia).
  rewrite pair_eta, length_app. simpl.
  pose proof (set_length (shift mv (last_pos s)) (visited_cells s)). lia.
Qed.

Lemma reachable_sound (s : LawnmowerSim) : Reachable s -> Sound s.
Proof.
  induction 1; [apply init_sound | apply move_sound; assumption].
Qed.

Lemma sound_rock_in_grid (s : LawnmowerSim) (c : Coord) :
  Sound s -> PyDict.contains c (valid_rocks s) = true ->
  in_grid (grid_height s) (grid_width s) c = true.
Proof.
  intros Hs Hc. apply contains_In in Hc. rewrite (sound_rocks s Hs) in Hc.
  apply filter_rocks_In in Hc. tauto.
Qed.

(** ** The move tokens *)

Lemma shift_candidate (mv : string) (p : Coord) :
  is_direction mv -> shift mv p = candidate p mv.
Proof.
  intros [-> | [-> | [-> | ->]]]; destruct p as [r c];
    unfold shift, candidate; simpl; f_equal; lia.
Qed.

Lemma shift_other (mv : string) (p : Coord) :
  ~ is_direction mv -> shift mv p = p.
Proof.
  intros H. unfold shift.
  destruct (String.eqb_spec mv "up");
    [exfalso; apply H; unfold is_direction; auto |].
  destruct (String.eqb_spec mv "down");
    [exfalso; apply H; unfold is_direction; auto |].
  destruct (String.eqb_spec mv "left");
    [exfalso; apply H; unfold is_direction; auto |].
  destruct (String.eqb_spec mv "right");
    [exfalso; apply H; unfold is_direction; auto |].
  reflexivity.
Qed.

(** ** The result of one move *)

(** C5. On an engine that has not crashed, and for a token among up, down,
    left and right, [move] returns [False] exactly when the candidate
    coordinate (the position plus the unit offset of the direction) is a valid
    rock or lies outside the grid; a rock sets the reason "Crashed into Rock",
    a coordinate off the grid sets "Crashed into Fence", and otherwise [move]
    returns [True] and the reason is still "None". *)
Theorem move_direction_result (s : LawnmowerSim) (mv : string) :
  Reachable s -> did_mower_crash s = false -> is_direction mv ->
  let c := candidate (last_pos s) mv in
  let s' := fst (move s mv) in
  (snd (move s mv) = false <->
     PyDict.contains c (valid_rocks s) = true \/
     in_grid (grid_height s) (grid_width s) c = false) /\
  (PyDict.contains c (valid_rocks s) = true ->
     crash_reason s' = "Crashed into Rock"%string) /\
  (in_grid (grid_height s) (grid_width s) c = false ->
     crash_reason s' = "Crashed into Fence"%string) /\
  (PyDict.contains c (valid_rocks s) = false ->
   in_grid (grid_height s) (grid_width s) c = true ->
     snd (move s mv) = true /\ crash_reason s' = "None"%string).
Proof.
  intros Hreach Hlive Hdir c s'. subst c s'.
  pose proof (reachable_sound s Hreach) as Hs.
  rewrite <- (shift_candidate mv (last_pos s) Hdir).
  move_cases s mv; simpl.
  - pose proof (sound_rock_in_grid s _ Hs Hrock) as Hin.
    repeat split; auto; try congruence.
  - rewrite Hlive. simpl. repeat split; try congruence.
    + intros [H | H]; congruence.
    + apply (sound_reason s Hs Hlive).
  - repeat split; auto; try congruence.
Qed.

Lemma move_direction_result_witness :
  snd (move (__init__ "FenceTest" 5 5 [] (0, 0)) "up") = false /\
  crash_reason (fst (move (__init__ "FenceTest" 5 5 [] (0, 0)) "up")) =
    "Crashed into Fence"%string.
Proof.
  pose proof (move_direction_result (__init__ "FenceTest" 5 5 [] (0, 0)) "up"
                (reach_init "FenceTest" 5 5 [] (0, 0)) eq_refl
                (or_introl eq_refl)) as H.
  destruct H as [H1 [_ [H3 _]]]. split.
  - apply H1. right. reflexivity.
  - apply H3. reflexivity.
Defined.

(** C8. On an engine that has not crashed, a token other than up, down, left
    and right leaves the position as it was, appends that position once more
    to [pos_history] (whose last entry it already was), and checks that same
    position for a rock and for the fence; when the position is on the grid
    and not a rock the call returns [True] and no crash is recorded. *)
Theorem move_unrecognized_token (s : LawnmowerSim) (mv : string) :
  Reachable s -> did_mower_crash s = false -> ~ is_direction mv ->
  let p := last_pos s in
  let s' := fst (move s mv) in
  last_pos s' = p /\
  pos_history s' = pos_history s ++ [p] /\
  last (pos_history s) (0, 0) = p /\
  (snd (move s mv) = false <->
     PyDict.contains p (valid_rocks s) = true \/
     in_grid (grid_height s) (grid_width s) p = false) /\
  (PyDict.contains p (valid_rocks s) = true ->
     did_mower_crash s' = true /\
     crash_reason s' = "Crashed into Rock"%string) /\
  (PyDict.contains p (valid_rocks s) = false ->
   in_grid (grid_height s) (grid_width s) p = false ->
     did_mower_crash s' = true /\
     crash_reason s' = "Crashed into Fence"%string) /\
  (PyDict.contains p (valid_rocks s) = false ->
   in_grid (grid_height s) (grid_width s) p = true ->
     snd (move s mv) = true /\ did_mower_crash s' = false /\
     crash_reason s' = "None"%string).
Proof.
  intros Hreach Hlive Hother p s'. subst p s'.
  pose proof (reachable_sound s Hreach) as Hs.
  destruct (sound_history s Hs) as [h Hh].
  assert (Hlast : last (pos_history s) (0, 0) = last_pos s)
    by (rewrite Hh; apply last_last).
  pose proof (shift_other mv (last_pos s) Hother) as Hshift.
  move_cases s mv; rewrite Hshift in *; simpl; rewrite ?pair_eta.
  - repeat split; auto; try congruence.
  - rewrite Hlive. simpl. repeat split; auto; try congruence.
    + intros [H | H]; congruence.
    + apply (sound_reason s Hs Hlive).
  - repeat split; auto; try congruence.
Qed.

Lemma move_unrecognized_token_witness :
  pos_history (fst (move (__init__ "T" 2 2 [] (1, 1)) "jump")) =
    [(1, 1); (1, 1)] /\
  snd (move (__init__ "T" 2 2 [] (1, 1)) "jump") = true.
Proof.
  assert (Hother : ~ is_direction "jump").
  { unfold is_direction. intros [H | [H | [H | H]]]; discriminate H. }
  pose proof (move_unrecognized_token (__init__ "T" 2 2 [] (1, 1)) "jump"
                (reach_init "T" 2 2 [] (1, 1)) eq_refl Hother) as H.
  destruct H as [_ [H2 [_ [_ [_ [_ H7]]]]]]. split.
  - exact H2.
  - apply H7; reflexivity.
Defined.

(** ** Scenario A *)

(** C7. Grid of height 3 and width 2, rocks [[1,1],[0,1]], start [0,0], moves
    down, down, right: the record returned by [execute_path] has
    [all_grass_cut] true, [did_mower_crash] false and
    [uncut_grass_remaining] 0. *)
Theorem scenario_A_result (name : string) :
  let status :=
    snd (execute_path (__init__ name 3 2 [(1, 1); (0, 1)] (0, 0))
                      ["down"; "down"; "right"]%string) in
  SimStatus.all_grass_cut status = true /\
  SimStatus.did_mower_crash status = false /\
  SimStatus.uncut_grass_remaining status = 0.
Proof. vm_compute. repeat split. Qed.

(** ** Construction with a start coordinate off the grid *)

(** C9. When the start coordinate given to [__init__] is outside the grid,
    [start_pos] and [last_pos] are (0,0), while [visited_cells] holds the
    given coordinate and nothing else; on a grid of positive height and
    width, (0,0) is therefore not in [visited_cells] after construction. *)
Theorem init_start_off_grid (name : string) (h w : Z) (rocks : list Coord)
    (start : Coord) :
  in_grid h w start = false ->
  let s := __init__ name h w rocks start in
  start_pos s = (0, 0) /\
  last_pos s = (0, 0) /\
  pos_history s = [(0, 0)] /\
  PyDict.keys (visited_cells s) = [start] /\
  (0 < h -> 0 < w -> ~ In (0, 0) (PyDict.keys (visited_cells s))).
Proof.
  intros Hout s. subst s. unfold __init__. simpl. rewrite Hout. simpl.
  rewrite pair_eta. repeat split.
  intros Hh Hw [H | []]. subst start.
  assert (in_grid h w (0, 0) = true) by (apply in_grid_spec; simpl; lia).
  congruence.
Qed.

Lemma init_start_off_grid_witness :
  start_pos (__init__ "T" 1 1 [] (5, 5)) = (0, 0) /\
  PyDict.keys (visited_cells (__init__ "T" 1 1 [] (5, 5))) = [(5, 5)] /\
  ~ In (0, 0) (PyDict.keys (visited_cells (__init__ "T" 1 1 [] (5, 5)))).
Proof.
  pose proof (init_start_off_grid "T" 1 1 [] (5, 5) eq_refl) as H.
  destruct H as [H1 [_ [_ [H4 H5]]]].
  split; [exact H1 | split; [exact H4 | apply H5; reflexivity]].
Defined.

(** ** Runs without a legal move *)

(** A call of [move] that causes the crash changes neither the visited
    cells nor the coverage counters. *)
Lemma crashing_move_frame (s : LawnmowerSim) (mv : string) :
  did_mower_crash s = false ->
  did_mower_crash (fst (move s mv)) = true ->
  let s' := fst (move s mv) in
  visited_cells s' = visited_cells s /\
  number_visited_cells s' = number_visited_cells s /\
  uncut_remaining s' = uncut_remaining s /\
  all_grass_cut s' = all_grass_cut s /\
  last_pos s' = shift mv (last_pos s) /\
  pos_history s' = pos_history s ++ [shift mv (last_pos s)] /\
  (PyDict.contains (last_pos s') (valid_rocks s') = true \/
   in_grid (grid_height s') (grid_width s') (last_pos s') = false).
Proof.
  intros Hlive. move_cases s mv; simpl; rewrite ?pair_eta; intros Hc;
    try congruence; repeat split; auto.
Qed.

(** C10. When a run makes no legal move (an empty path, or a first move that
    crashes), the record returned reports [all_grass_cut] false, and its
    [uncut_grass_remaining] is the value set at construction,
    [total_grass_squares - 1], which is 0 on a lawn of one mowable square:
    the flag starts false and only a legal move computes it again. *)
Theorem no_legal_move_reports_not_cut (name : string) (h w : Z)
    (rocks : list Coord) (start : Coord) (path : list string) :
  no_legal_move (__init__ name h w rocks start) path ->
  let status := snd (execute_path (__init__ name h w rocks start) path) in
  SimStatus.all_grass_cut status = false /\
  SimStatus.uncut_grass_remaining status =
    SimStatus.total_grass_squares status - 1.
Proof.
  intros Hno status. subst status. unfold execute_path. simpl snd.
  destruct path as [| mv rest].
  - simpl. split; reflexivity.
  - simpl in Hno. rewrite run_path_cons.
    rewrite move_returns in Hno. apply negb_false_iff in Hno. rewrite Hno.
    destruct (crashing_move_frame (__init__ name h w rocks start) (lower mv)
                eq_refl Hno) as [_ [_ [Hu [Ha _]]]].
    destruct (move_frame (__init__ name h w rocks start) (lower mv))
      as [_ [_ [_ [_ [_ [Ht _]]]]]].
    simpl SimStatus.all_grass_cut. simpl SimStatus.uncut_grass_remaining.
    simpl SimStatus.total_grass_squares.
    rewrite Ha, Hu, Ht. split; reflexivity.
Qed.

Lemma no_legal_move_reports_not_cut_witness :
  SimStatus.all_grass_cut
    (snd (execute_path (__init__ "T" 1 1 [] (0, 0)) [])) = false /\
  SimStatus.uncut_grass_remaining
    (snd (execute_path (__init__ "T" 1 1 [] (0, 0)) [])) = 0.
Proof.
  exact (no_legal_move_reports_not_cut "T" 1 1 [] (0, 0) [] I).
Defined.

(** ** After the crash *)

Lemma run_path_stops (pre : list string) (s : LawnmowerSim) (mv : string)
    (rest : list string) :
  did_mower_crash (run_path s (pre ++ [mv])) = true ->
  path_states s (pre ++ mv :: rest) = path_states s (pre ++ [mv]) /\
  run_path s (pre ++ mv :: rest) = run_path s (pre ++ [mv]).
Proof.
  revert s. induction pre as [| p pre IH]; intros s; simpl app.
  - rewrite !run_path_cons, !path_states_cons.
    destruct (did_mower_crash (fst (move s (lower mv)))) eqn:E.
    + intros _. split; reflexivity.
    + simpl. congruence.
  - rewrite !run_path_cons, !path_states_cons.
    destruct (did_mower_crash (fst (move s (lower p)))) eqn:E.
    + intros _. split; reflexivity.
    + intros H. destruct (IH _ H) as [H1 H2]. rewrite H1, H2.
      split; reflexivity.
Qed.

(** In the trace of a path only the last state can be a crashed one. *)
Lemma path_states_crash_last (path : list string) (s x : LawnmowerSim)
    (tr : list LawnmowerSim) :
  path_states s path = tr ++ [x] ->
  Forall (fun y => did_mower_crash y = false) tr.
Proof.
  revert s tr. induction path as [| mv rest IH]; intros s tr.
  - simpl. intros H. destruct tr; discriminate H.
  - rewrite path_states_cons.
    destruct (did_mower_crash (fst (move s (lower mv)))) eqn:E.
    + intros H. destruct tr as [| t tr]; [constructor |].
      injection H as _ H. destruct tr; discriminate H.
    + intros H. destruct tr as [| t tr]; [constructor |].
      injection H as Ht H. subst t. constructor; [assumption |].
      apply (IH _ _ H).
Qed.

(** C4. Once [did_mower_crash] is true no call of [move] makes it false;
    and when the run of a path is crashed after its move [mv], the moves
    [rest] that follow are not attempted: the calls of [move] made, the
    final engine (so [pos_history], [last_pos], [visited_cells],
    [uncut_remaining] and [all_grass_cut]) and the record returned are those
    of the path cut after [mv], and no state before the last one of the
    trace is a crashed one. *)
Theorem crash_is_terminal (s : LawnmowerSim) (pre : list string)
    (mv : string) (rest : list string) :
  did_mower_crash (run_path s (pre ++ [mv])) = true ->
  (forall x m, did_mower_crash x = true ->
               did_mower_crash (fst (move x m)) = true) /\
  path_states s (pre ++ mv :: rest) = path_states s (pre ++ [mv]) /\
  run_path s (pre ++ mv :: rest) = run_path s (pre ++ [mv]) /\
  execute_path s (pre ++ mv :: rest) = execute_path s (pre ++ [mv]) /\
  did_mower_crash (run_path s (pre ++ mv :: rest)) = true /\
  Forall (fun y => did_mower_crash y = false)
         (removelast (path_states s (pre ++ mv :: rest))).
Proof.
  intros Hcrash. destruct (run_path_stops pre s mv rest Hcrash) as [Hst Hrun].
  split; [intros x m; apply move_crash_mono |].
  split; [exact Hst |]. split; [exact Hrun |].
  split; [unfold execute_path; rewrite Hrun; reflexivity |].
  split; [rewrite Hrun; exact Hcrash |].
  destruct (path_states s (pre ++ mv :: rest)) as [| y ys] eqn:E using rev_ind.
  - constructor.
  - rewrite removelast_last. apply (path_states_crash_last _ _ _ _ E).
Qed.

Lemma crash_is_terminal_witness :
  execute_path (__init__ "RockTest" 5 5 [(1, 1)] (0, 0))
               ["down"; "right"; "up"; "left"]%string =
  execute_path (__init__ "RockTest" 5 5 [(1, 1)] (0, 0))
               ["down"; "right"]%string.
Proof.
  pose proof (crash_is_terminal (__init__ "RockTest" 5 5 [(1, 1)] (0, 0))
                ["down"%string] "right" ["up"; "left"]%string eq_refl) as H.
  destruct H as [_ [_ [_ [H _]]]]. exact H.
Defined.

(** ** The valid rocks *)

Lemma coord_eqb_sym (a b : Coord) : coord_eqb a b = coord_eqb b a.
Proof.
  unfold coord_eqb. rewrite (Z.eqb_sym (fst a)), (Z.eqb_sym (snd a)).
  reflexivity.
Qed.

Lemma filter_filter {A : Type} (p q : A -> bool) (l : list A) :
  filter p (filter q l) = filter (fun x => p x && q x) l.
Proof.
  induction l as [| a l IH]; simpl; [reflexivity |].
  destruct (q a); simpl; destruct (p a); simpl; rewrite ?IH; reflexivity.
Qed.

Lemma contains_app (c : Coord) (d1 d2 : PyDict.t) :
  PyDict.contains c (d1 ++ d2) = PyDict.contains c d1 || PyDict.contains c d2.
Proof. apply existsb_app. Qed.

(** The loop over the rocks, started from any dictionary [d]. *)
Lemma keep_rock_order (h w : Z) (rocks : list Coord) (d : PyDict.t) :
  fold_left (keep_rock h w) rocks d =
  d ++ filter (fun c => negb (PyDict.contains c d))
              (first_occurrences (filter (in_grid h w) rocks)).
Proof.
  revert d. induction rocks as [| r rocks IH]; intros d; simpl.
  - rewrite app_nil_r. reflexivity.
  - rewrite IH. unfold keep_rock. destruct r as [row col].
    destruct (in_grid h w (row, col)) eqn:E; [| reflexivity].
    simpl. unfold PyDict.set.
    destruct (PyDict.contains (row, col) d) eqn:Hd; simpl.
    + f_equal. rewrite filter_filter. apply filter_ext. intros c.
      destruct (coord_eqb (row, col) c) eqn:Hc; simpl;
        [| rewrite andb_true_r; reflexivity].
      apply coord_eqb_eq in Hc. subst c. rewrite Hd. reflexivity.
    + rewrite <- app_assoc. simpl. do 2 f_equal.
      rewrite filter_filter. apply filter_ext. intros c.
      rewrite contains_app. simpl. rewrite orb_false_r, negb_orb.
      rewrite (coord_eqb_sym c). reflexivity.
Qed.

Lemma filter_rocks_order (h w : Z) (rocks : list Coord) :
  filter_rocks h w rocks = first_occurrences (filter (in_grid h w) rocks).
Proof.
  unfold filter_rocks. rewrite keep_rock_order. simpl.
  induction (first_occurrences (filter (in_grid h w) rocks)) as [| a l IH];
    simpl; [reflexivity | rewrite IH; reflexivity].
Qed.

Lemma first_occurrences_NoDup (l : list Coord) :
  NoDup l -> first_occurrences l = l.
Proof.
  induction 1 as [| x l Hx Hl IH]; simpl; [reflexivity |].
  rewrite IH. f_equal. apply forallb_filter_id. apply forallb_forall.
  intros y Hy. apply negb_true_iff.
  destruct (coord_eqb x y) eqn:E; [| reflexivity].
  apply coord_eqb_eq in E. subst y. contradiction.
Qed.

Lemma run_path_frame (path : list string) (s : LawnmowerSim) :
  valid_rocks (run_path s path) = valid_rocks s /\
  total_grass_squares (run_path s path) = total_grass_squares s /\
  grid_height (run_path s path) = grid_height s /\
  grid_width (run_path s path) = grid_width s.
Proof.
  apply (run_path_inv (fun x =>
    valid_rocks x = valid_rocks s /\
    total_grass_squares x = total_grass_squares s /\
    grid_height x = grid_height s /\ grid_width x = grid_width s));
    [| repeat split].
  intros x mv [H1 [H2 [H3 H4]]].
  destruct (move_frame x mv) as [_ [F1 [F2 [_ [F3 [F4 _]]]]]].
  repeat split; congruence.
Qed.

(** C6. The keys of [valid_rocks] are exactly the coordinates of
    [rock_locations] that are on the grid, in the order of the input with the
    coordinates off the grid removed ([valid_rocks] being a dictionary, a
    coordinate listed more than once is a key once, where it first occurs).
    So [valid_rocks] has at most as many entries as [rock_locations];
    [total_grass_squares] is height*width minus the number of valid rocks,
    and no call of [move] or [execute_path] changes either. *)
Theorem valid_rocks_first_occurrences (name : string) (h w : Z)
    (rocks : list Coord) (start : Coord) :
  let s := __init__ name h w rocks start in
  PyDict.keys (valid_rocks s) =
    first_occurrences (filter (in_grid h w) rocks) /\
  (forall c, In c (PyDict.keys (valid_rocks s)) <->
             In c rocks /\ in_grid h w c = true) /\
  NoDup (PyDict.keys (valid_rocks s)) /\
  (NoDup (filter (in_grid h w) rocks) ->
   PyDict.keys (valid_rocks s) = filter (in_grid h w) rocks) /\
  (length (PyDict.keys (valid_rocks s)) <= length (rock_locations s))%nat /\
  total_grass_squares s = h * w - PyDict.len (valid_rocks s) /\
  (forall x mv,
     valid_rocks (fst (move x mv)) = valid_rocks x /\
     total_grass_squares (fst (move x mv)) = total_grass_squares x) /\
  (forall x path,
     valid_rocks (fst (execute_path x path)) = valid_rocks x /\
     total_grass_squares (fst (execute_path x path)) =
       total_grass_squares x /\
     SimStatus.valid_rocks (snd (execute_path x path)) =
       PyDict.keys (valid_rocks x) /\
     SimStatus.total_grass_squares (snd (execute_path x path)) =
       total_grass_squares x).
Proof.
  intros s. subst s. simpl. unfold PyDict.keys.
  split; [apply filter_rocks_order |].
  split; [intros c; apply filter_rocks_In |].
  split; [apply filter_rocks_NoDup |].
  split; [intros Hnd; rewrite filter_rocks_order;
          apply first_occurrences_NoDup, Hnd |].
  split; [apply (keep_rock_length h w rocks []) |].
  split; [rewrite (Z.mul_comm h w); reflexivity |].
  split.
  - intros x mv. destruct (move_frame x mv) as [_ [_ [_ [_ [F1 [F2 _]]]]]].
    split; assumption.
  - intros x path. destruct (run_path_frame path x) as [F1 [F2 _]].
    repeat split; assumption.
Qed.

Lemma valid_rocks_first_occurrences_witness :
  PyDict.keys (valid_rocks (__init__ "T" 3 2 [(1, 1); (7, 0); (0, 1)] (0, 0)))
    = [(1, 1); (0, 1)] /\
  total_grass_squares (__init__ "T" 3 2 [(1, 1); (7, 0); (0, 1)] (0, 0)) = 4.
Proof.
  pose proof (valid_rocks_first_occurrences
                "T" 3 2 [(1, 1); (7, 0); (0, 1)] (0, 0)) as H.
  destruct H as [_ [_ [_ [H4 [_ [H6 _]]]]]]. split.
  - apply H4. vm_compute. repeat constructor; simpl; intuition discriminate.
  - exact H6.
Defined.

(** A coordinate listed twice is a valid rock once. *)
Example valid_rocks_repeated_input :
  PyDict.keys (valid_rocks (__init__ "T" 1 2 [(0, 1); (0, 1)] (0, 0)))
    = [(0, 1)] /\
  total_grass_squares (__init__ "T" 1 2 [(0, 1); (0, 1)] (0, 0)) = 1.
Proof. split; reflexivity. Qed.

(** ** Counting the mowable squares *)

Lemma rows_In (n x : Z) : In x (rows n) <-> 0 <= x < n.
Proof.
  unfold rows. rewrite in_map_iff. split.
  - intros [k [<- Hk]]. apply in_seq in Hk. lia.
  - intros H. exists (Z.to_nat x). split; [lia | apply in_seq; lia].
Qed.

Lemma rows_NoDup (n : Z) : NoDup (rows n).
Proof.
  unfold rows. generalize (seq_NoDup (Z.to_nat n) 0).
  induction 1 as [| k l Hk Hl IH]; simpl; constructor; trivial.
  rewrite in_map_iff. intros [j [Hj Hin]].
  apply Nat2Z.inj in Hj. subst j. contradiction.
Qed.

Lemma rows_length (n : Z) : 0 <= n -> Z.of_nat (length (rows n)) = n.
Proof. intros H. unfold rows. rewrite length_map, length_seq. lia. Qed.

Lemma list_prod_NoDup {A B : Type} (l : list A) (l' : list B) :
  NoDup l -> NoDup l' -> NoDup (list_prod l l').
Proof.
  intros Hl Hl'. induction Hl as [| a l Ha Hl IH]; simpl; [constructor |].
  apply NoDup_app; trivial.
  - clear -Hl'. induction Hl' as [| b l' Hb Hl' IH]; simpl; constructor; trivial.
    rewrite in_map_iff. intros [b' [Hb' Hin]]. injection Hb' as ->.
    contradiction.
  - intros [x y] Hxy Hin. apply in_map_iff in Hxy.
    destruct Hxy as [b [Hb _]]. injection Hb as <- <-.
    apply in_prod_iff in Hin. tauto.
Qed.

Lemma grid_cells_In (h w : Z) (c : Coord) :
  In c (grid_cells h w) <-> in_grid h w c = true.
Proof.
  destruct c as [r k]. unfold grid_cells.
  rewrite (in_prod_iff (rows h) (rows w) r k), !rows_In, in_grid_spec.
  simpl. tauto.
Qed.

Lemma grid_cells_NoDup (h w : Z) : NoDup (grid_cells h w).
Proof. apply list_prod_NoDup; apply rows_NoDup. Qed.

Lemma grid_cells_length (h w : Z) :
  0 <= h -> 0 <= w -> Z.of_nat (length (grid_cells h w)) = h * w.
Proof.
  intros Hh Hw. unfold grid_cells, Coord.
  rewrite length_prod, Nat2Z.inj_mul, !rows_length; trivial.
Qed.

Section Lawn.

Variables (h w : Z) (rocks : PyDict.t).

Lemma mowable_cells_In (c : Coord) :
  In c (mowable_cells h w rocks) <->
  in_grid h w c = true /\ PyDict.contains c rocks = false.
Proof.
  unfold mowable_cells. rewrite filter_In, grid_cells_In, negb_true_iff.
  tauto.
Qed.

Lemma mowable_cells_NoDup : NoDup (mowable_cells h w rocks).
Proof. apply NoDup_filter, grid_cells_NoDup. Qed.

(** A lawn: a grid and rocks on it, each rock counted once. *)
Hypothesis height_nonneg : 0 <= h.
Hypothesis width_nonneg : 0 <= w.
Hypothesis rocks_NoDup : NoDup rocks.
Hypothesis rocks_in_grid : forall c, In c rocks -> in_grid h w c = true.

Lemma mowable_cells_length :
  Z.of_nat (length (mowable_cells h w rocks)) = w * h - PyDict.len rocks.
Proof.
  unfold mowable_cells, PyDict.len.
  pose proof (filter_length (fun c => PyDict.contains c rocks)
                            (grid_cells h w)) as Hsplit.
  assert (Hperm : Permutation
            (filter (fun c => PyDict.contains c rocks) (grid_cells h w))
            rocks).
  { apply NoDup_Permutation; trivial.
    - apply NoDup_filter, grid_cells_NoDup.
    - intros c. rewrite filter_In, grid_cells_In, contains_In.
      split; [tauto | auto]. }
  apply Permutation_length in Hperm.
  pose proof (grid_cells_length h w height_nonneg width_nonneg). lia.
Qed.

(** The visited cells of a tidy engine are mowable squares, counted once. *)
Lemma tidy_count (s : LawnmowerSim) :
  Tidy h w rocks s ->
  0 <= uncut_remaining s /\
  (uncut_remaining s = 0 <->
   forall c, in_grid h w c = true -> PyDict.contains c rocks = false ->
             In c (visited_cells s)).
Proof.
  intros [_ _ _ Ht Hv Hn Hu].
  pose proof mowable_cells_length as Hlen.
  pose proof mowable_cells_NoDup as Hmn.
  assert (Hincl : incl (visited_cells s) (mowable_cells h w rocks)).
  { intros c Hc. apply mowable_cells_In. apply Hv, Hc. }
  pose proof (NoDup_incl_length Hn Hincl) as Hle.
  unfold PyDict.len in *. split; [lia |]. split.
  - intros Hz c Hc1 Hc2.
    apply (NoDup_length_incl (l' := mowable_cells h w rocks) Hn);
      [lia | assumption |].
    apply mowable_cells_In. split; assumption.
  - intros Hall.
    assert (Hincl' : incl (mowable_cells h w rocks) (visited_cells s)).
    { intros c Hc. apply mowable_cells_In in Hc. apply Hall; tauto. }
    pose proof (NoDup_incl_length Hmn Hincl'). lia.
Qed.

End Lawn.

(** ** Engines started on a mowable square *)

Lemma init_tidy (name : string) (h w : Z) (rocks : list Coord)
    (start : Coord) :
  in_grid h w start = true ->
  PyDict.contains start (filter_rocks h w rocks) = false ->
  Tidy h w (filter_rocks h w rocks) (__init__ name h w rocks start).
Proof.
  intros Hin Hrock. constructor; simpl; try reflexivity.
  - rewrite pair_eta. intros c [<- | []]. split; assumption.
  - repeat constructor. intros [].
Qed.

Lemma move_tidy (h w : Z) (rocks : PyDict.t) (s : LawnmowerSim)
    (mv : string) :
  Tidy h w rocks s -> Tidy h w rocks (fst (move s mv)).
Proof.
  intros [Hh Hw Hr Ht Hv Hn Hu].
  move_cases s mv; constructor; simpl; trivial; rewrite ?pair_eta.
  - intros c Hc. apply set_In in Hc. destruct Hc as [-> | Hc]; [| auto].
    rewrite <- Hh, <- Hw, <- Hr. split; assumption.
  - apply set_NoDup, Hn.
Qed.

Lemma last_in_trace {A : Type} (l : list A) (d : A) : In (last l d) (d :: l).
Proof.
  revert d. induction l as [| a l IH]; intros d; [left; reflexivity |].
  rewrite last_cons_shift. right. apply IH.
Qed.

Lemma run_path_in_trace (s : LawnmowerSim) (path : list string) :
  In (run_path s path) (s :: path_states s path).
Proof. rewrite run_path_last. apply last_in_trace. Qed.

Lemma trace_tidy (h w : Z) (rocks : PyDict.t) (s0 : LawnmowerSim)
    (path : list string) (s : LawnmowerSim) :
  Tidy h w rocks s0 -> In s (s0 :: path_states s0 path) -> Tidy h w rocks s.
Proof.
  intros H0 [<- | Hin]; [assumption |].
  pose proof (path_states_inv (Tidy h w rocks)
                (fun x mv => move_tidy h w rocks x mv) path s0 H0) as HF.
  rewrite Forall_forall in HF. apply HF, Hin.
Qed.

(** ** The visited cells *)

(** C1, as the code has it. When the start coordinate is on the grid and is
    not a valid rock, then at construction and after every move that
    [execute_path] makes, every coordinate of [visited_cells] is on the grid
    (0 <= row < height, 0 <= col < width) and is not a valid rock. *)
Theorem visited_cells_mowable (name : string) (h w : Z) (rocks : list Coord)
    (start : Coord) (path : list string) :
  let s0 := __init__ name h w rocks start in
  in_grid h w start = true ->
  PyDict.contains start (valid_rocks s0) = false ->
  In (fst (execute_path s0 path)) (s0 :: path_states s0 path) /\
  forall s, In s (s0 :: path_states s0 path) ->
  forall c, In c (PyDict.keys (visited_cells s)) ->
            in_grid h w c = true /\
            PyDict.contains c (valid_rocks s) = false.
Proof.
  intros s0 Hin Hrock. split; [apply run_path_in_trace |].
  intros s Hs c Hc.
  pose proof (trace_tidy h w _ s0 path s (init_tidy name h w rocks start
                                            Hin Hrock) Hs) as Ht.
  rewrite (tidy_rocks _ _ _ _ Ht). apply (tidy_visited _ _ _ _ Ht), Hc.
Qed.

Lemma visited_cells_mowable_witness :
  in_grid 5 5 (0, 0) = true /\
  PyDict.contains (0, 0)
    (valid_rocks (__init__ "RockTest" 5 5 [(1, 1)] (0, 0))) = false /\
  forall c,
    In c (PyDict.keys (visited_cells
            (fst (execute_path (__init__ "RockTest" 5 5 [(1, 1)] (0, 0))
                               ["down"; "right"]%string)))) ->
    in_grid 5 5 c = true /\
    PyDict.contains c
      (valid_rocks (fst (execute_path (__init__ "RockTest" 5 5 [(1, 1)] (0, 0))
                                      ["down"; "right"]%string))) = false.
Proof.
  split; [reflexivity |]. split; [reflexivity |].
  pose proof (visited_cells_mowable "RockTest" 5 5 [(1, 1)] (0, 0)
                ["down"; "right"]%string eq_refl eq_refl) as [H1 H2].
  exact (H2 _ H1).
Defined.

(** A start coordinate that is a valid rock is recorded as visited. *)
Lemma visited_cells_start_on_rock :
  In (0, 0) (SimStatus.visited_cells
               (snd (execute_path (__init__ "T" 1 2 [(0, 0)] (0, 0)) []))) /\
  In (0, 0) (SimStatus.valid_rocks
               (snd (execute_path (__init__ "T" 1 2 [(0, 0)] (0, 0)) []))).
Proof. split; left; reflexivity. Qed.

(** ** The coverage counter *)

(** C2, as the code has it. When the start coordinate is on the grid (so
    height and width are positive) and is not a valid rock, then at
    construction and after every move that [execute_path] makes,
    [uncut_remaining] is at least 0, and it is 0 exactly when every mowable
    square (a cell of the grid that is not a valid rock) is in
    [visited_cells]. *)
Theorem uncut_remaining_counts (name : string) (h w : Z) (rocks : list Coord)
    (start : Coord) (path : list string) :
  let s0 := __init__ name h w rocks start in
  in_grid h w start = true ->
  PyDict.contains start (valid_rocks s0) = false ->
  In (fst (execute_path s0 path)) (s0 :: path_states s0 path) /\
  forall s, In s (s0 :: path_states s0 path) ->
    0 <= uncut_remaining s /\
    (uncut_remaining s = 0 <->
     forall c, in_grid h w c = true ->
               PyDict.contains c (valid_rocks s) = false ->
               In c (PyDict.keys (visited_cells s))).
Proof.
  intros s0 Hin Hrock. split; [apply run_path_in_trace |].
  intros s Hs.
  pose proof (trace_tidy h w _ s0 path s (init_tidy name h w rocks start
                                            Hin Hrock) Hs) as Ht.
  rewrite (tidy_rocks _ _ _ _ Ht).
  apply in_grid_spec in Hin.
  apply tidy_count; trivial; try lia.
  - apply filter_rocks_NoDup.
  - intros c Hc. apply filter_rocks_In in Hc. tauto.
Qed.

Lemma uncut_remaining_counts_witness :
  in_grid 3 2 (0, 0) = true /\
  PyDict.contains (0, 0)
    (valid_rocks (__init__ "ValidTest" 3 2 [(1, 1); (0, 1)] (0, 0))) = false /\
  0 <= uncut_remaining
    (fst (execute_path (__init__ "ValidTest" 3 2 [(1, 1); (0, 1)] (0, 0))
                       ["down"; "down"; "right"]%string)) /\
  forall c, in_grid 3 2 c = true ->
    PyDict.contains c
      (valid_rocks
         (fst (execute_path (__init__ "ValidTest" 3 2 [(1, 1); (0, 1)] (0, 0))
                            ["down"; "down"; "right"]%string))) = false ->
    In c (PyDict.keys (visited_cells
      (fst (execute_path (__init__ "ValidTest" 3 2 [(1, 1); (0, 1)] (0, 0))
                         ["down"; "down"; "right"]%string)))).
Proof.
  split; [reflexivity |]. split; [reflexivity |].
  pose proof (uncut_remaining_counts "ValidTest" 3 2 [(1, 1); (0, 1)] (0, 0)
                ["down"; "down"; "right"]%string eq_refl eq_refl) as [H1 H2].
  destruct (H2 _ H1) as [Hpos Hiff].
  split; [exact Hpos | apply Hiff; reflexivity].
Defined.

(** On a lawn whose only cell is a rock, the counter starts below 0. *)
Lemma uncut_remaining_start_on_rock :
  SimStatus.total_grass_squares
    (snd (execute_path (__init__ "T" 1 1 [(0, 0)] (0, 0)) [])) = 0 /\
  SimStatus.uncut_grass_remaining
    (snd (execute_path (__init__ "T" 1 1 [(0, 0)] (0, 0)) [])) = -1.
Proof. split; reflexivity. Qed.

(** ** The move history *)

Lemma move_history (s : LawnmowerSim) (mv : string) :
  pos_history (fst (move s mv)) = pos_history s ++ [shift mv (last_pos s)] /\
  last_pos (fst (move s mv)) = shift mv (last_pos s).
Proof. move_cases s mv; simpl; rewrite ?pair_eta; split; reflexivity. Qed.

Lemma run_path_history (path : list string) (s : LawnmowerSim) :
  length (pos_history (run_path s path)) =
    (length (pos_history s) + length (path_states s path))%nat.
Proof.
  revert s. induction path as [| mv rest IH]; intros s.
  - simpl. lia.
  - rewrite run_path_cons, path_states_cons.
    pose proof (proj1 (move_history s (lower mv))) as Hh.
    destruct (did_mower_crash (fst (move s (lower mv)))).
    + rewrite Hh, length_app. simpl. lia.
    + rewrite IH, Hh, length_app. simpl. lia.
Qed.

Lemma path_states_length (path : list string) (s : LawnmowerSim) :
  (length (path_states s path) <= length path)%nat /\
  (did_mower_crash (run_path s path) = false ->
   length (path_states s path) = length path).
Proof.
  revert s. induction path as [| mv rest IH]; intros s.
  - simpl. split; [lia | reflexivity].
  - rewrite run_path_cons, path_states_cons.
    destruct (did_mower_crash (fst (move s (lower mv)))) eqn:E.
    + simpl. split; [lia | congruence].
    + destruct (IH (fst (move s (lower mv)))) as [H1 H2]. simpl.
      split; [lia | intros H; rewrite (H2 H); reflexivity].
Qed.

(** A crashed run: the moves before the crash-causing one, that move, and
    the moves left out. *)
Lemma run_path_crash_split (path : list string) (s : LawnmowerSim) :
  did_mower_crash s = false ->
  did_mower_crash (run_path s path) = true ->
  exists pre mv rest,
    path = pre ++ mv :: rest /\
    did_mower_crash (run_path s pre) = false /\
    run_path s path = fst (move (run_path s pre) (lower mv)) /\
    length (path_states s path) = S (length pre).
Proof.
  revert s. induction path as [| m path IH]; intros s Hlive.
  - simpl. congruence.
  - rewrite run_path_cons, path_states_cons.
    destruct (did_mower_crash (fst (move s (lower m)))) eqn:E.
    + intros _. exists [], m, path. repeat split; assumption.
    + intros Hc. destruct (IH _ E Hc) as [pre [mv [rest [Hp [Hl [Hr Hn]]]]]].
      exists (m :: pre), mv, rest. rewrite run_path_cons, E. simpl.
      repeat split; try assumption; [congruence | lia].
Qed.

(** After [execute_path] on a fresh engine,
    [pos_history] has one entry for the start and one for each call of
    [move] made (all the moves of the path when the run does not crash;
    the moves up to and with the crash-causing one when it does);
    [visited_cells] has at most as many entries as [pos_history]; and when
    the run crashes, the coordinate of the crash is the last entry of
    [pos_history], it is a valid rock or off the grid, and the
    crash-causing move adds nothing to [visited_cells]. When moreover the
    start coordinate is on the grid and is not a valid rock, the coordinate
    of the crash is not in [visited_cells]. *)
Theorem pos_history_records_crash (name : string) (h w : Z)
    (rocks : list Coord) (start : Coord) (path : list string) :
  let s0 := __init__ name h w rocks start in
  let st := fst (execute_path s0 path) in
  length (pos_history st) = S (length (path_states s0 path)) /\
  (length (path_states s0 path) <= length path)%nat /\
  (did_mower_crash st = false ->
   length (path_states s0 path) = length path) /\
  (length (PyDict.keys (visited_cells st)) <= length (pos_history st))%nat /\
  (did_mower_crash st = true ->
   exists pre mv rest,
     path = pre ++ mv :: rest /\
     length (path_states s0 path) = S (length pre) /\
     did_mower_crash (run_path s0 pre) = false /\
     st = fst (move (run_path s0 pre) (lower mv)) /\
     last_pos st = shift (lower mv) (last_pos (run_path s0 pre)) /\
     last (pos_history st) (0, 0) = last_pos st /\
     (PyDict.contains (last_pos st) (valid_rocks st) = true \/
      in_grid h w (last_pos st) = false) /\
     visited_cells st = visited_cells (run_path s0 pre)) /\
  (in_grid h w start = true ->
   PyDict.contains start (valid_rocks s0) = false ->
   did_mower_crash st = true ->
   ~ In (last_pos st) (PyDict.keys (visited_cells st))).
Proof.
  intros s0 st. subst st. unfold execute_path. simpl fst.
  assert (Hcrash : did_mower_crash (run_path s0 path) = true ->
    exists pre mv rest,
     path = pre ++ mv :: rest /\
     length (path_states s0 path) = S (length pre) /\
     did_mower_crash (run_path s0 pre) = false /\
     run_path s0 path = fst (move (run_path s0 pre) (lower mv)) /\
     last_pos (run_path s0 path) =
       shift (lower mv) (last_pos (run_path s0 pre)) /\
     last (pos_history (run_path s0 path)) (0, 0) =
       last_pos (run_path s0 path) /\
     (PyDict.contains (last_pos (run_path s0 path))
                      (valid_rocks (run_path s0 path)) = true \/
      in_grid h w (last_pos (run_path s0 path)) = false) /\
     visited_cells (run_path s0 path) = visited_cells (run_path s0 pre)).
  { intros Hc.
    destruct (run_path_crash_split path s0 eq_refl Hc)
      as [pre [mv [rest [Hp [Hl [Hr Hn]]]]]].
    exists pre, mv, rest. rewrite Hr in Hc.
    destruct (crashing_move_frame _ (lower mv) Hl Hc)
      as [Hv [_ [_ [_ [Hpos [Hhist Hbad]]]]]].
    destruct (run_path_frame path s0) as [_ [_ [Hgh Hgw]]].
    rewrite <- Hr in Hv, Hpos, Hhist, Hbad. rewrite Hgh, Hgw in Hbad.
    repeat split; trivial.
    rewrite Hhist, Hpos. apply last_last. }
  split. { rewrite run_path_history. reflexivity. }
  split. { apply path_states_length. }
  split. { apply path_states_length. }
  split.
  { apply sound_sizes, reachable_sound, reachable_run_path, reach_init. }
  split; [exact Hcrash |].
  intros Hin Hrock Hc Hvis.
  destruct (Hcrash Hc) as [_ [_ [_ [_ [_ [_ [_ [_ [_ [Hbad _]]]]]]]]]].
  pose proof (trace_tidy h w _ s0 path _
                (init_tidy name h w rocks start Hin Hrock)
                (run_path_in_trace s0 path)) as Ht.
  destruct (tidy_visited _ _ _ _ Ht _ Hvis) as [Hg Hr].
  rewrite (tidy_rocks _ _ _ _ Ht) in Hbad.
  destruct Hbad; congruence.
Qed.

Lemma pos_history_records_crash_witness :
  length (pos_history
            (fst (execute_path (__init__ "RockTest" 5 5 [(1, 1)] (0, 0))
                               ["down"; "right"; "up"]%string))) = 3%nat /\
  ~ In (last_pos
          (fst (execute_path (__init__ "RockTest" 5 5 [(1, 1)] (0, 0))
                             ["down"; "right"; "up"]%string)))
       (PyDict.keys (visited_cells
          (fst (execute_path (__init__ "RockTest" 5 5 [(1, 1)] (0, 0))
                             ["down"; "right"; "up"]%string)))).
Proof.
  pose proof (pos_history_records_crash "RockTest" 5 5 [(1, 1)] (0, 0)
                ["down"; "right"; "up"]%string) as H.
  destruct H as [H1 [_ [_ [_ [_ H6]]]]]. split.
  - exact H1.
  - apply H6; reflexivity.
Defined.

(** C3, at the input where the code departs from it. The start coordinate
    [0,1] is off the lawn of one cell: [start_pos] is reset to (0,0), but
    [visited_cells] is built from the coordinate as given. The move right
    then crashes into the fence at (0,1), the last entry of [pos_history],
    and that coordinate is in [visited_cells] although the mower was never
    on it. *)
Lemma crash_coordinate_in_visited_cells :
  SimStatus.start_pos
    (snd (execute_path (__init__ "T" 1 1 [] (0, 1)) ["right"%string])) =
    (0, 0) /\
  SimStatus.did_mower_crash
    (snd (execute_path (__init__ "T" 1 1 [] (0, 1)) ["right"%string])) = true /\
  SimStatus.crash_reason
    (snd (execute_path (__init__ "T" 1 1 [] (0, 1)) ["right"%string])) =
    "Crashed into Fence"%string /\
  SimStatus.pos_history
    (snd (execute_path (__init__ "T" 1 1 [] (0, 1)) ["right"%string])) =
    [(0, 0); (0, 1)] /\
  SimStatus.visited_cells
    (snd (execute_path (__init__ "T" 1 1 [] (0, 1)) ["right"%string])) =
    [(0, 1)] /\
  in_grid 1 1 (0, 1) = false.
Proof. repeat split; reflexivity. Qed.

(** * Further properties of the engine *)

(** ** The crash flag and the crash reason *)

(** On every engine the reason is "None" exactly when the mower has not
    crashed, and is one of the two crash reasons exactly when it has. *)
Theorem crash_reason_classifies (s : LawnmowerSim) :
  Reachable s ->
  (did_mower_crash s = false <-> crash_reason s = "None"%string) /\
  (did_mower_crash s = true <->
   crash_reason s = "Crashed into Rock"%string \/
   crash_reason s = "Crashed into Fence"%string).
Proof.
  intros Hreach.
  assert (H : (did_mower_crash s = false /\ crash_reason s = "None"%string) \/
              (did_mower_crash s = true /\
               (crash_reason s = "Crashed into Rock"%string \/
                crash_reason s = "Crashed into Fence"%string))).
  { induction Hreach as [name h w rocks start | s mv Hreach IH].
    - left. split; reflexivity.
    - move_cases s mv; simpl; auto. }
  destruct H as [[Hc Hr] | [Hc Hr]]; rewrite Hc; split; split; intros H;
    try reflexivity; try assumption; try discriminate.
  - rewrite Hr in H. destruct H; discriminate.
  - rewrite H in Hr. destruct Hr; discriminate.
Qed.

Lemma crash_reason_classifies_witness :
  crash_reason (fst (execute_path (__init__ "T" 2 2 [] (0, 0))
                                  ["down"; "down"]%string)) =
    "Crashed into Rock"%string \/
  crash_reason (fst (execute_path (__init__ "T" 2 2 [] (0, 0))
                                  ["down"; "down"]%string)) =
    "Crashed into Fence"%string.
Proof.
  apply (crash_reason_classifies
           (fst (execute_path (__init__ "T" 2 2 [] (0, 0))
                              ["down"; "down"]%string))).
  - apply reachable_run_path, reach_init.
  - reflexivity.
Defined.

(** ** The coverage bookkeeping *)

(** On every engine, whatever the start coordinate was,
    [number_visited_cells] is the size of [visited_cells],
    [uncut_remaining] is [total_grass_squares] minus that number and so is
    below [total_grass_squares], and [all_grass_cut] is only true when
    [uncut_remaining] is 0. *)
Theorem coverage_bookkeeping (s : LawnmowerSim) :
  Reachable s ->
  number_visited_cells s = PyDict.len (visited_cells s) /\
  1 <= number_visited_cells s /\
  uncut_remaining s = total_grass_squares s - number_visited_cells s /\
  uncut_remaining s < total_grass_squares s /\
  (all_grass_cut s = true -> uncut_remaining s = 0).
Proof.
  intros Hreach.
  assert (H : number_visited_cells s = PyDict.len (visited_cells s) /\
              1 <= number_visited_cells s /\
              uncut_remaining s =
                total_grass_squares s - number_visited_cells s /\
              (all_grass_cut s = true -> uncut_remaining s = 0)).
  { induction Hreach as [name h w rocks start | s mv Hreach IH].
    - simpl. repeat split; try lia; discriminate.
    - destruct IH as [Hn [H1 [Hu Ha]]].
      move_cases s mv; simpl; repeat split; trivial.
      + pose proof (set_length (fst (shift mv (last_pos s)),
                                snd (shift mv (last_pos s)))
                               (visited_cells s)) as Hl.
        unfold PyDict.len in *. lia.
      + intros H. apply Z.eqb_eq in H. exact H. }
  destruct H as [Hn [H1 [Hu Ha]]]. repeat split; trivial. lia.
Qed.

Lemma coverage_bookkeeping_witness :
  uncut_remaining (fst (execute_path (__init__ "T" 1 1 [] (0, 5))
                                     ["jump"%string])) = -1.
Proof.
  pose proof (coverage_bookkeeping
                (fst (execute_path (__init__ "T" 1 1 [] (0, 5))
                                   ["jump"%string]))
                (reachable_run_path _ _ (reach_init "T" 1 1 [] (0, 5)))) as H.
  destruct H as [_ [_ [H _]]]. exact H.
Defined.

(** ** The move history as a walk *)

Lemma near_shift (mv : string) (p : Coord) : near p (shift mv p).
Proof.
  unfold near, shift.
  destruct (mv =? "up")%string; [simpl; lia |].
  destruct (mv =? "down")%string; [simpl; lia |].
  destruct (mv =? "left")%string; [simpl; lia |].
  destruct (mv =? "right")%string; simpl; lia.
Qed.

Lemma is_walk_snoc (l : list Coord) (a b : Coord) :
  is_walk (l ++ [a]) -> near a b -> is_walk ((l ++ [a]) ++ [b]).
Proof.
  intros Hw Hn. induction l as [| x l IH].
  - simpl. auto.
  - simpl in Hw. destruct Hw as [Hx Hw]. specialize (IH Hw).
    simpl. split; [| exact IH].
    destruct l as [| y l]; simpl in *; assumption.
Qed.

(** On every engine, [pos_history] starts with [start_pos], ends with
    [last_pos], and each of its entries is the one before it or one unit
    step away from it: a crash is recorded one step from the last legal
    position, and nothing is skipped. *)
Theorem pos_history_is_walk (s : LawnmowerSim) :
  Reachable s ->
  hd_error (pos_history s) = Some (start_pos s) /\
  last (pos_history s) (start_pos s) = last_pos s /\
  is_walk (pos_history s).
Proof.
  intros Hreach.
  assert (H : hd_error (pos_history s) = Some (start_pos s) /\
              (exists h, pos_history s = h ++ [last_pos s]) /\
              is_walk (pos_history s)).
  { induction Hreach as [name h w rocks start | s mv Hreach IH].
    - simpl. split; [reflexivity |]. split; [| auto].
      exists []. rewrite !pair_eta. reflexivity.
    - destruct IH as [Hhd [[h Hh] Hw]].
      destruct (move_history s mv) as [Hhist Hpos].
      destruct (move_frame s mv) as [_ [_ [_ [_ [_ [_ Hstart]]]]]].
      rewrite Hhist, Hpos, Hstart. split; [| split].
      + destruct (pos_history s); [discriminate | exact Hhd].
      + eexists. reflexivity.
      + rewrite Hh in *. apply is_walk_snoc; [exact Hw | apply near_shift]. }
  destruct H as [Hhd [[h Hh] Hw]]. repeat split; trivial.
  rewrite Hh. apply last_last.
Qed.

Lemma pos_history_is_walk_witness :
  is_walk (pos_history (fst (execute_path (__init__ "T" 3 3 [(1, 1)] (9, 9))
                                          ["down"; "hop"; "right"]%string))).
Proof.
  pose proof (pos_history_is_walk
                (fst (execute_path (__init__ "T" 3 3 [(1, 1)] (9, 9))
                                   ["down"; "hop"; "right"]%string))
                (reachable_run_path _ _ (reach_init "T" 3 3 [(1, 1)] (9, 9))))
    as H.
  exact (proj2 (proj2 H)).
Defined.

(** ** The visited cells in the order of first visit *)

Lemma contains_filter_other (x a : Coord) (l : list Coord) :
  coord_eqb a x = false ->
  PyDict.contains x (filter (fun y => negb (coord_eqb a y)) l) =
  PyDict.contains x l.
Proof.
  intros Hax. induction l as [| y l IH]; simpl; [reflexivity |].
  destruct (coord_eqb a y) eqn:E; simpl; rewrite IH; [| reflexivity].
  apply coord_eqb_eq in E. subst y.
  rewrite (coord_eqb_sym x a), Hax. reflexivity.
Qed.

Lemma first_occurrences_snoc (l : list Coord) (x : Coord) :
  first_occurrences (l ++ [x]) = PyDict.set x (first_occurrences l).
Proof.
  induction l as [| a l IH]; [reflexivity |].
  simpl. rewrite IH. unfold PyDict.set. simpl.
  destruct (coord_eqb x a) eqn:Exa; simpl.
  - apply coord_eqb_eq in Exa. subst a. f_equal.
    destruct (PyDict.contains x (first_occurrences l)); [reflexivity |].
    rewrite filter_app. simpl.
    assert (Hxx : coord_eqb x x = true) by (apply coord_eqb_eq; reflexivity).
    rewrite Hxx. simpl. apply app_nil_r.
  - rewrite coord_eqb_sym in Exa.
    rewrite (contains_filter_other x a _ Exa).
    destruct (PyDict.contains x (first_occurrences l)); [reflexivity |].
    rewrite filter_app. simpl. rewrite Exa. reflexivity.
Qed.

(** When the start coordinate is on the grid, [execute_path] on a fresh
    engine leaves in [visited_cells] the coordinates of [pos_history], each
    once and in the order of its first visit; the entry of a crash, the last
    one of [pos_history], is left out. *)
Theorem visited_cells_first_visit_order (name : string) (h w : Z)
    (rocks : list Coord) (start : Coord) (path : list string) :
  in_grid h w start = true ->
  let status := snd (execute_path (__init__ name h w rocks start) path) in
  SimStatus.visited_cells status =
    first_occurrences
      (if SimStatus.did_mower_crash status
       then removelast (SimStatus.pos_history status)
       else SimStatus.pos_history status).
Proof.
  intros Hin status. subst status. unfold execute_path. simpl.
  unfold PyDict.keys. set (s0 := __init__ name h w rocks start).
  assert (Hinv : forall s, (did_mower_crash s = false ->
                            visited_cells s =
                              first_occurrences (pos_history s)) ->
                 forall mv, did_mower_crash (fst (move s mv)) = false ->
                   visited_cells (fst (move s mv)) =
                     first_occurrences (pos_history (fst (move s mv)))).
  { intros s Hs mv. move_cases s mv; simpl; try discriminate.
    intros Hc. rewrite pair_eta, first_occurrences_snoc, (Hs Hc).
    reflexivity. }
  assert (H0 : did_mower_crash s0 = false ->
               visited_cells s0 = first_occurrences (pos_history s0)).
  { intros _. unfold s0. simpl. rewrite Hin, !pair_eta. reflexivity. }
  pose proof (run_path_inv
                (fun s => did_mower_crash s = false ->
                          visited_cells s = first_occurrences (pos_history s))
                (fun s mv Hs => Hinv s Hs mv)) as Hrun.
  destruct (did_mower_crash (run_path s0 path)) eqn:Hc.
  - destruct (run_path_crash_split path s0 eq_refl Hc)
      as [pre [mv [rest [_ [Hlive [Hr _]]]]]].
    rewrite Hr in Hc.
    destruct (crashing_move_frame _ (lower mv) Hlive Hc)
      as [Hv [_ [_ [_ [_ [Hhist _]]]]]].
    rewrite Hr, Hv, Hhist, removelast_last.
    apply (Hrun pre s0 H0 Hlive).
  - apply (Hrun path s0 H0 Hc).
Qed.

Lemma visited_cells_first_visit_order_witness :
  SimStatus.visited_cells
    (snd (execute_path (__init__ "T" 2 2 [] (0, 0))
                       ["right"; "left"; "down"; "down"]%string)) =
  first_occurrences
    (if SimStatus.did_mower_crash
          (snd (execute_path (__init__ "T" 2 2 [] (0, 0))
                             ["right"; "left"; "down"; "down"]%string))
     then removelast
            (SimStatus.pos_history
               (snd (execute_path (__init__ "T" 2 2 [] (0, 0))
                                  ["right"; "left"; "down"; "down"]%string)))
     else SimStatus.pos_history
            (snd (execute_path (__init__ "T" 2 2 [] (0, 0))
                               ["right"; "left"; "down"; "down"]%string))).
Proof.
  exact (visited_cells_first_visit_order "T" 2 2 [] (0, 0)
           ["right"; "left"; "down"; "down"]%string eq_refl).
Defined.

(** ** Paths run in two parts, and the case of the tokens *)

Lemma run_path_app (p1 p2 : list string) (s : LawnmowerSim) :
  did_mower_crash (run_path s p1) = false ->
  run_path s (p1 ++ p2) = run_path (run_path s p1) p2.
Proof.
  revert s. induction p1 as [| m p1 IH]; intros s; [reflexivity |].
  simpl app. rewrite !run_path_cons.
  destruct (did_mower_crash (fst (move s (lower m)))) eqn:E.
  - congruence.
  - apply IH.
Qed.

(** When [execute_path] on a path [p1] ends without a crash, a second call
    on the same engine with [p2] leaves the engine, and returns the record
    (the message trace apart), that one call with [p1 ++ p2] gives. *)
Theorem execute_path_composes (s : LawnmowerSim) (p1 p2 : list string) :
  did_mower_crash (fst (execute_path s p1)) = false ->
  execute_path (fst (execute_path s p1)) p2 = execute_path s (p1 ++ p2).
Proof.
  unfold execute_path. simpl. intros H. rewrite (run_path_app _ _ _ H).
  reflexivity.
Qed.

Lemma execute_path_composes_witness :
  execute_path
    (fst (execute_path (__init__ "T" 3 2 [(1, 1)] (0, 0)) ["down"%string]))
    ["down"; "right"]%string =
  execute_path (__init__ "T" 3 2 [(1, 1)] (0, 0))
               (["down"%string] ++ ["down"; "right"]%string).
Proof.
  exact (execute_path_composes (__init__ "T" 3 2 [(1, 1)] (0, 0))
           ["down"%string] ["down"; "right"]%string eq_refl).
Defined.

Lemma lower_char_idempotent (c : ascii) :
  lower_char (lower_char c) = lower_char c.
Proof.
  destruct c as [b0 b1 b2 b3 b4 b5 b6 b7].
  destruct b0, b1, b2, b3, b4, b5, b6, b7; reflexivity.
Qed.

Lemma lower_idempotent (x : string) : lower (lower x) = lower x.
Proof.
  induction x as [| c x IH]; simpl; [reflexivity |].
  rewrite lower_char_idempotent, IH. reflexivity.
Qed.

Lemma run_path_lower (p p' : list string) (s : LawnmowerSim) :
  map lower p = map lower p' -> run_path s p = run_path s p'.
Proof.
  revert p' s. induction p as [| m p IH]; intros [| m' p'] s H;
    try discriminate H; [reflexivity |].
  simpl in H. injection H as Hm Hp. rewrite !run_path_cons, Hm.
  rewrite (IH p' _ Hp). reflexivity.
Qed.

(** [execute_path] reads its tokens through [lower]: two paths whose tokens
    differ only by the case of their letters give the same engine and the
    same record, and lowering the tokens beforehand changes nothing. *)
Theorem execute_path_ignores_case (s : LawnmowerSim) (p p' : list string) :
  map lower p = map lower p' ->
  execute_path s p = execute_path s p' /\
  execute_path s (map lower p) = execute_path s p.
Proof.
  intros H. unfold execute_path. split.
  - rewrite (run_path_lower p p' s H). reflexivity.
  - rewrite (run_path_lower (map lower p) p s); [reflexivity |].
    rewrite map_map. apply map_ext. intros x. apply lower_idempotent.
Qed.

Lemma execute_path_ignores_case_witness :
  execute_path (__init__ "T" 3 2 [(1, 1)] (0, 0)) ["Down"; "DOWN"]%string =
  execute_path (__init__ "T" 3 2 [(1, 1)] (0, 0)) ["down"; "dOWN"]%string.
Proof.
  exact (proj1 (execute_path_ignores_case (__init__ "T" 3 2 [(1, 1)] (0, 0))
                  ["Down"; "DOWN"]%string ["down"; "dOWN"]%string eq_refl)).
Defined.

(** ** A crashed engine used again *)

(** On an engine that has crashed, [move] still shifts the position and
    records it in [pos_history], and returns [False] whatever the new
    position is; so a further [execute_path] makes the first move of its
    path and no other. *)
Theorem move_after_crash (s : LawnmowerSim) (mv : string) :
  did_mower_crash s = true ->
  snd (move s mv) = false /\
  did_mower_crash (fst (move s mv)) = true /\
  last_pos (fst (move s mv)) = shift mv (last_pos s) /\
  pos_history (fst (move s mv)) = pos_history s ++ [shift mv (last_pos s)] /\
  forall rest,
    execute_path s (mv :: rest) =
      (fst (move s (lower mv)), sim_status (fst (move s (lower mv)))).
Proof.
  intros Hc. pose proof (move_crash_mono s mv Hc) as Hc'.
  destruct (move_history s mv) as [Hh Hp].
  split; [rewrite move_returns, Hc'; reflexivity |].
  repeat split; trivial.
  intros rest. unfold execute_path. rewrite run_path_cons.
  rewrite (move_crash_mono s (lower mv) Hc). reflexivity.
Qed.

Lemma move_after_crash_witness :
  snd (move (fst (execute_path (__init__ "T" 2 2 [] (0, 0)) ["up"%string]))
            "down") = false /\
  last_pos
    (fst (move (fst (execute_path (__init__ "T" 2 2 [] (0, 0)) ["up"%string]))
               "down")) =
  shift "down"
    (last_pos (fst (execute_path (__init__ "T" 2 2 [] (0, 0)) ["up"%string]))).
Proof.
  pose proof (move_after_crash
                (fst (execute_path (__init__ "T" 2 2 [] (0, 0)) ["up"%string]))
                "down" eq_refl) as H.
  destruct H as [H1 [_ [H3 _]]]. split; [exact H1 | exact H3].
Defined.

(** ** Visits and the counter *)

Lemma reachable_counts (s : LawnmowerSim) :
  Reachable s ->
  number_visited_cells s = PyDict.len (visited_cells s) /\
  uncut_remaining s = total_grass_squares s - PyDict.len (visited_cells s).
Proof.
  induction 1 as [name h w rocks start | s mv Hreach [Hn Hu]].
  - simpl. split; reflexivity.
  - move_cases s mv; simpl; split; trivial.
Qed.

(** A legal move onto a cell that is already in [visited_cells] changes
    neither [visited_cells] nor [number_visited_cells] nor
    [uncut_remaining]; [all_grass_cut] becomes the test of
    [uncut_remaining] against 0. *)
Theorem revisit_changes_no_count (s : LawnmowerSim) (mv : string) :
  Reachable s ->
  in_grid (grid_height s) (grid_width s) (shift mv (last_pos s)) = true ->
  PyDict.contains (shift mv (last_pos s)) (valid_rocks s) = false ->
  In (shift mv (last_pos s)) (PyDict.keys (visited_cells s)) ->
  let s' := fst (move s mv) in
  visited_cells s' = visited_cells s /\
  number_visited_cells s' = number_visited_cells s /\
  uncut_remaining s' = uncut_remaining s /\
  all_grass_cut s' = (uncut_remaining s =? 0).
Proof.
  intros Hreach Hg Hr Hin s'. subst s'.
  destruct (reachable_counts s Hreach) as [Hn Hu].
  apply contains_In in Hin.
  rewrite (move_legal s mv Hr Hg). simpl. rewrite pair_eta.
  unfold PyDict.set, PyDict.keys in *. rewrite Hin, <- Hn.
  rewrite <- Hn in Hu. rewrite <- Hu. repeat split; reflexivity.
Qed.

Lemma revisit_changes_no_count_witness :
  visited_cells
    (fst (move (fst (move (__init__ "T" 1 2 [] (0, 0)) "right")) "left")) =
  visited_cells (fst (move (__init__ "T" 1 2 [] (0, 0)) "right")) /\
  all_grass_cut
    (fst (move (fst (move (__init__ "T" 1 2 [] (0, 0)) "right")) "left")) =
  (uncut_remaining (fst (move (__init__ "T" 1 2 [] (0, 0)) "right")) =? 0).
Proof.
  pose proof (revisit_changes_no_count
                (fst (move (__init__ "T" 1 2 [] (0, 0)) "right")) "left"
                (reach_move _ _ (reach_init "T" 1 2 [] (0, 0)))
                eq_refl eq_refl (or_introl eq_refl)) as H.
  destruct H as [H1 [_ [_ H4]]]. split; [exact H1 | exact H4].
Defined.

Lemma move_visited_grows (s : LawnmowerSim) (mv : string) :
  exists more, visited_cells (fst (move s mv)) = visited_cells s ++ more.
Proof.
  move_cases s mv; simpl; try (exists []; rewrite app_nil_r; reflexivity).
  unfold PyDict.set.
  destruct (PyDict.contains _ (visited_cells s)).
  - exists []. rewrite app_nil_r. reflexivity.
  - eexists. reflexivity.
Qed.

(** Along a path [visited_cells] only grows at its end, the cells already
    there keeping their places, and [uncut_remaining] goes down by the
    number of cells added: it never goes up. *)
Theorem visited_cells_only_grow (s : LawnmowerSim) (path : list string) :
  Reachable s ->
  exists more,
    visited_cells (fst (execute_path s path)) = visited_cells s ++ more /\
    uncut_remaining (fst (execute_path s path)) =
      uncut_remaining s - Z.of_nat (length more).
Proof.
  intros Hreach. unfold execute_path. simpl.
  assert (H : exists more,
             visited_cells (run_path s path) = visited_cells s ++ more).
  { apply (run_path_inv
             (fun x => exists more, visited_cells x = visited_cells s ++ more)).
    - intros x mv [more Hx]. destruct (move_visited_grows x mv) as [m Hm].
      exists (more ++ m). rewrite Hm, Hx, app_assoc. reflexivity.
    - exists []. rewrite app_nil_r. reflexivity. }
  destruct H as [more Hmore]. exists more. split; [exact Hmore |].
  destruct (reachable_counts s Hreach) as [_ Hu].
  destruct (reachable_counts _ (reachable_run_path path s Hreach)) as [_ Hu'].
  destruct (run_path_frame path s) as [_ [Ht _]].
  rewrite Hu', Hu, Ht, Hmore. unfold PyDict.len.
  rewrite length_app. lia.
Qed.

Lemma visited_cells_only_grow_witness :
  exists more,
    visited_cells
      (fst (execute_path (__init__ "T" 2 2 [] (0, 0)) ["down"%string])) =
    visited_cells (__init__ "T" 2 2 [] (0, 0)) ++ more /\
    uncut_remaining
      (fst (execute_path (__init__ "T" 2 2 [] (0, 0)) ["down"%string])) =
    uncut_remaining (__init__ "T" 2 2 [] (0, 0)) - Z.of_nat (length more).
Proof.
  exact (visited_cells_only_grow (__init__ "T" 2 2 [] (0, 0)) ["down"%string]
           (reach_init "T" 2 2 [] (0, 0))).
Defined.

(** ** The number of grass squares *)

(** On a grid of height and width at least 0, [total_grass_squares] is the
    number of cells of the grid that are not listed in [rock_locations],
    whatever that list repeats or holds off the grid; it lies between 0 and
    height*width. *)
Theorem total_grass_squares_counts_cells (name : string) (h w : Z)
    (rocks : list Coord) (start : Coord) :
  0 <= h -> 0 <= w ->
  let s := __init__ name h w rocks start in
  total_grass_squares s =
    Z.of_nat (length (mowable_cells h w (valid_rocks s))) /\
  NoDup (mowable_cells h w (valid_rocks s)) /\
  (forall c, In c (mowable_cells h w (valid_rocks s)) <->
             in_grid h w c = true /\ ~ In c (rock_locations s)) /\
  0 <= total_grass_squares s <= h * w.
Proof.
  intros Hh Hw s. subst s. simpl.
  assert (Hin : forall c, In c (filter_rocks h w rocks) ->
                          in_grid h w c = true).
  { intros c Hc. apply filter_rocks_In in Hc. tauto. }
  pose proof (mowable_cells_length h w (filter_rocks h w rocks) Hh Hw
                (filter_rocks_NoDup h w rocks) Hin) as Hlen.
  split; [lia |]. split; [apply mowable_cells_NoDup |]. split.
  - intros c. rewrite mowable_cells_In, contains_not_In, filter_rocks_In.
    tauto.
  - unfold PyDict.len in *. split; [lia |].
    assert (0 <= Z.of_nat (length (filter_rocks h w rocks))) by lia. lia.
Qed.

Lemma total_grass_squares_counts_cells_witness :
  total_grass_squares (__init__ "T" 2 2 [(0, 1); (5, 5); (0, 1)] (0, 0)) =
  Z.of_nat (length (mowable_cells 2 2
    (valid_rocks (__init__ "T" 2 2 [(0, 1); (5, 5); (0, 1)] (0, 0))))).
Proof.
  pose proof (total_grass_squares_counts_cells
                "T" 2 2 [(0, 1); (5, 5); (0, 1)] (0, 0)) as H.
  exact (proj1 (H ltac:(lia) ltac:(lia))).
Defined.

(** ** Where a run ends *)

Lemma shift_row_col (mv : string) (p : Coord) :
  fst (shift mv p) =
    fst p + (if (mv =? "down")%string then 1 else 0)
          - (if (mv =? "up")%string then 1 else 0) /\
  snd (shift mv p) =
    snd p + (if (mv =? "right")%string then 1 else 0)
          - (if (mv =? "left")%string then 1 else 0).
Proof.
  unfold shift.
  destruct (String.eqb_spec mv "up") as [-> | _]; [simpl; lia |].
  destruct (String.eqb_spec mv "down") as [-> | _]; [simpl; lia |].
  destruct (String.eqb_spec mv "left") as [-> | _]; [simpl; lia |].
  destruct (String.eqb_spec mv "right") as [-> | _]; simpl; lia.
Qed.

Lemma count_token_cons (t m : string) (path : list string) :
  count_token t (m :: path) =
    (if (lower m =? t)%string then 1 else 0) + count_token t path.
Proof.
  unfold count_token. simpl. rewrite (String.eqb_sym t (lower m)).
  destruct (lower m =? t)%string; simpl length; lia.
Qed.

(** When a run does not crash, the mower ends at its position before the
    run displaced by the moves of the path: the row by the number of downs
    minus the number of ups, the column by the number of rights minus the
    number of lefts, tokens being counted whatever their case. *)
Theorem last_pos_adds_moves (s : LawnmowerSim) (path : list string) :
  did_mower_crash (fst (execute_path s path)) = false ->
  let status := snd (execute_path s path) in
  fst (SimStatus.last_pos status) =
    fst (last_pos s) + count_token "down" path - count_token "up" path /\
  snd (SimStatus.last_pos status) =
    snd (last_pos s) + count_token "right" path - count_token "left" path.
Proof.
  unfold execute_path. simpl. revert s.
  induction path as [| m path IH]; intros s.
  - intros _. unfold count_token. simpl. split; lia.
  - rewrite run_path_cons, !count_token_cons.
    destruct (did_mower_crash (fst (move s (lower m)))) eqn:E;
      [congruence |].
    intros H. destruct (IH _ H) as [Hr Hc].
    destruct (move_history s (lower m)) as [_ Hp].
    destruct (shift_row_col (lower m) (last_pos s)) as [Sr Sc].
    rewrite Hr, Hc, Hp, Sr, Sc. split; lia.
Qed.

Lemma last_pos_adds_moves_witness :
  fst (SimStatus.last_pos
         (snd (execute_path (__init__ "T" 3 3 [] (1, 1))
                            ["Down"; "up"; "UP"]%string))) =
  fst (last_pos (__init__ "T" 3 3 [] (1, 1)))
  + count_token "down" ["Down"; "up"; "UP"]%string
  - count_token "up" ["Down"; "up"; "UP"]%string.
Proof.
  exact (proj1 (last_pos_adds_moves (__init__ "T" 3 3 [] (1, 1))
                  ["Down"; "up"; "UP"]%string eq_refl)).
Defined.

(** ** The cells of the move history *)

(** When the start coordinate is on the grid and is not a valid rock, every
    entry of [pos_history] after [execute_path] is a cell of the grid that
    is not a valid rock, except the last entry of a run that crashed. *)
Theorem pos_history_cells_mowable (name : string) (h w : Z)
    (rocks : list Coord) (start : Coord) (path : list string) :
  let s0 := __init__ name h w rocks start in
  in_grid h w start = true ->
  PyDict.contains start (valid_rocks s0) = false ->
  let status := snd (execute_path s0 path) in
  forall c,
    In c (if SimStatus.did_mower_crash status
          then removelast (SimStatus.pos_history status)
          else SimStatus.pos_history status) ->
    in_grid h w c = true /\
    PyDict.contains c (SimStatus.valid_rocks status) = false.
Proof.
  intros s0 Hin Hrock status. subst status. unfold execute_path. simpl.
  unfold PyDict.keys. destruct (run_path_frame path s0) as [Hvr _].
  rewrite Hvr. clear Hvr.
  assert (H0 : did_mower_crash s0 = false /\ pos_history s0 = [start] /\
               grid_height s0 = h /\ grid_width s0 = w).
  { unfold s0. simpl. rewrite Hin, pair_eta. repeat split. }
  destruct H0 as [Hlive0 [Hhist0 [Hh0 Hw0]]].
  remember (valid_rocks s0) as vr eqn:Hvr. clearbody s0.
  set (P := fun s : LawnmowerSim =>
    grid_height s = h /\ grid_width s = w /\ valid_rocks s = vr /\
    (did_mower_crash s = false ->
     forall c, In c (pos_history s) ->
       in_grid h w c = true /\ PyDict.contains c vr = false)).
  assert (Hstep : forall s mv, P s -> P (fst (move s mv))).
  { intros s mv [Hh [Hw [Hr Hs]]].
    destruct (move_frame s mv) as [_ [F1 [F2 [_ [F3 _]]]]].
    split; [congruence |]. split; [congruence |]. split; [congruence |].
    revert F1 F2 F3. move_cases s mv; simpl; try discriminate.
    intros _ _ _ Hc c Hc'. apply in_app_iff in Hc'.
    destruct Hc' as [Hc' | [<- | []]]; [apply (Hs Hc c Hc') |].
    rewrite pair_eta, <- Hh, <- Hw, <- Hr. split; assumption. }
  assert (H0 : P s0).
  { unfold P. repeat split; auto.
    - rewrite Hhist0 in H0. destruct H0 as [<- | []]. exact Hin.
    - rewrite Hhist0 in H0. destruct H0 as [<- | []]. exact Hrock. }
  pose proof (run_path_inv P Hstep) as Hrun.
  destruct (did_mower_crash (run_path s0 path)) eqn:Hc.
  - destruct (run_path_crash_split path s0 Hlive0 Hc)
      as [pre [mv [rest [_ [Hlive [Hr _]]]]]].
    rewrite Hr in Hc.
    destruct (crashing_move_frame _ (lower mv) Hlive Hc)
      as [_ [_ [_ [_ [_ [Hhist _]]]]]].
    rewrite Hr, Hhist, removelast_last.
    destruct (Hrun pre s0 H0) as [_ [_ [_ Hp]]]. apply (Hp Hlive).
  - destruct (Hrun path s0 H0) as [_ [_ [_ Hp]]]. apply (Hp Hc).
Qed.

Lemma pos_history_cells_mowable_witness :
  in_grid 5 5 (0, 0) = true /\
  forall c,
    In c (if SimStatus.did_mower_crash
               (snd (execute_path (__init__ "RockTest" 5 5 [(1, 1)] (0, 0))
                                  ["down"; "right"]%string))
          then removelast
                 (SimStatus.pos_history
                    (snd (execute_path
                            (__init__ "RockTest" 5 5 [(1, 1)] (0, 0))
                            ["down"; "right"]%string)))
          else SimStatus.pos_history
                 (snd (execute_path (__init__ "RockTest" 5 5 [(1, 1)] (0, 0))
                                    ["down"; "right"]%string))) ->
    in_grid 5 5 c = true /\
    PyDict.contains c
      (SimStatus.valid_rocks
         (snd (execute_path (__init__ "RockTest" 5 5 [(1, 1)] (0, 0))
                            ["down"; "right"]%string))) = false.
Proof.
  split; [reflexivity |].
  exact (pos_history_cells_mowable "RockTest" 5 5 [(1, 1)] (0, 0)
           ["down"; "right"]%string eq_refl eq_refl).
Defined.

(** * Properties of the parser of definition files *)

Example splitlines_examples :
  PyStr.splitlines "" = [] /\
  PyStr.splitlines (String "010" "") = [""%string] /\
  PyStr.splitlines ("a" ++ String "013" (String "010" "b")) =
    ["a"; "b"]%string /\
  PyStr.splitlines ("a" ++ String "010" (String "013" "b")) =
    ["a"; ""; "b"]%string /\
  PyStr.splitlines ("a" ++ String "010" "") = ["a"%string] /\
  PyStr.split "=" "a=b=c" = ["a"; "b"; "c"]%string /\
  PyStr.split "=" "a=" = ["a"; ""]%string /\
  PyStr.strip "  height " = "height"%string.
Proof. repeat split; reflexivity. Qed.

Lemma split_from_length (sep : ascii) (s part : string) :
  length (PyStr.split_from sep part s) = S (count_char sep s).
Proof.
  revert part. induction s as [| c s IH]; intros part; simpl; [reflexivity |].
  destruct (Ascii.eqb c sep); simpl; rewrite IH; reflexivity.
Qed.

Lemma has_char_count (c : ascii) (s : string) :
  PyStr.has_char c s = true <-> (1 <= count_char c s)%nat.
Proof.
  induction s as [| c' s IH]; simpl.
  - split; [discriminate | lia].
  - destruct (Ascii.eqb c' c); simpl; [split; [lia | reflexivity] |].
    exact IH.
Qed.

Lemma split_in_two (sep : ascii) (line key val : string) :
  PyStr.split sep line = [key; val] -> PyStr.has_char sep line = true.
Proof.
  intros H. apply has_char_count.
  pose proof (split_from_length sep line "") as Hl.
  unfold PyStr.split in H. rewrite H in Hl. simpl in Hl. lia.
Qed.

Section ParseTextFileFacts.

Variable V : Type.
Variable literal_eval : string -> option V.

Lemma parse_lines_app (l1 l2 : list string) (p : list (string * V)) :
  parse_lines V literal_eval (l1 ++ l2) p =
    match parse_lines V literal_eval l1 p with
    | Parsed p' => parse_lines V literal_eval l2 p'
    | UnpackError => UnpackError
    | LiteralEvalError => LiteralEvalError
    end.
Proof.
  revert p. induction l1 as [| line l1 IH]; intros p; simpl; [reflexivity |].
  destruct (PyStr.has_char "=" line); [| apply IH].
  destruct (PyStr.split "=" line) as [| a [| b [| c l]]]; try reflexivity.
  destruct (literal_eval (PyStr.strip b)); [apply IH | reflexivity].
Qed.

Lemma parse_lines_two_equals (lines : list string) (line : string)
    (p : list (string * V)) :
  In line lines -> (2 <= count_char "=" line)%nat ->
  forall d, parse_lines V literal_eval lines p <> Parsed d.
Proof.
  intros Hin Hcount. revert p.
  induction lines as [| l lines IH]; intros p d; [destruct Hin |].
  simpl. destruct Hin as [-> | Hin].
  - assert (Hhas : PyStr.has_char "=" line = true)
      by (apply has_char_count; lia).
    rewrite Hhas. pose proof (split_from_length "=" line "") as Hl.
    unfold PyStr.split.
    destruct (PyStr.split_from "=" "" line) as [| a [| b [| c l]]];
      simpl in Hl; try lia; discriminate.
  - destruct (PyStr.has_char "=" l); [| apply (IH Hin)].
    destruct (PyStr.split "=" l) as [| a [| b [| c l']]]; try discriminate.
    destruct (literal_eval (PyStr.strip b)); [apply (IH Hin) | discriminate].
Qed.

(** A line in which '=' occurs twice or more makes [parse_text_file] raise:
    whatever the other lines are, no dictionary is returned. So a value
    that holds an '=' (in a test name, say) cannot be given in a
    definition file. *)
Theorem parse_text_file_two_equals (content line : string) :
  In line (PyStr.splitlines content) ->
  (2 <= count_char "=" line)%nat ->
  forall d, parse_text_file V literal_eval content <> Parsed d.
Proof.
  intros Hin Hcount d. apply (parse_lines_two_equals _ line); assumption.
Qed.

Lemma parse_lines_filter (lines : list string) (p : list (string * V)) :
  parse_lines V literal_eval (filter (PyStr.has_char "=") lines) p =
  parse_lines V literal_eval lines p.
Proof.
  revert p. induction lines as [| l lines IH]; intros p; [reflexivity |].
  simpl. destruct (PyStr.has_char "=" l) eqn:E; [| apply IH].
  simpl. rewrite E.
  destruct (PyStr.split "=" l) as [| a [| b [| c l']]]; try reflexivity.
  destruct (literal_eval (PyStr.strip b)); [apply IH | reflexivity].
Qed.

(** The lines without '=' (empty lines, titles, remarks) play no part:
    two contents with the same lines holding '=', in the same order,
    parse alike. *)
Theorem parse_text_file_skips_plain_lines (c1 c2 : string) :
  filter (PyStr.has_char "=") (PyStr.splitlines c1) =
  filter (PyStr.has_char "=") (PyStr.splitlines c2) ->
  parse_text_file V literal_eval c1 = parse_text_file V literal_eval c2.
Proof.
  intros H. unfold parse_text_file.
  rewrite <- (parse_lines_filter (PyStr.splitlines c1)), H.
  apply parse_lines_filter.
Qed.

Lemma get_set_same (k : string) (v : V) (d : list (string * V)) :
  PyParams.get k (PyParams.set k v d) = Some v.
Proof.
  induction d as [| [k' v'] d IH]; simpl.
  - rewrite String.eqb_refl. reflexivity.
  - destruct (k' =? k)%string eqn:E; simpl.
    + rewrite String.eqb_refl. reflexivity.
    + rewrite E. exact IH.
Qed.

Lemma get_set_other (k k' : string) (v : V) (d : list (string * V)) :
  k' <> k -> PyParams.get k' (PyParams.set k v d) = PyParams.get k' d.
Proof.
  intros Hne. induction d as [| [k0 v0] d IH]; simpl.
  - destruct (String.eqb_spec k k'); [congruence | reflexivity].
  - destruct (String.eqb_spec k0 k) as [-> | Hk0]; simpl.
    + destruct (String.eqb_spec k k'); [congruence | reflexivity].
    + destruct (k0 =? k')%string; [reflexivity | exact IH].
Qed.

Lemma parse_lines_keeps (k : string) (lines : list string)
    (p d : list (string * V)) :
  (forall l key val, In l lines -> PyStr.split "=" l = [key; val] ->
                     PyStr.strip key <> k) ->
  parse_lines V literal_eval lines p = Parsed d ->
  PyParams.get k d = PyParams.get k p.
Proof.
  revert p. induction lines as [| l lines IH]; intros p Hno; simpl.
  - intros H. injection H as <-. reflexivity.
  - assert (Hno' : forall l0 key val, In l0 lines ->
                     PyStr.split "=" l0 = [key; val] ->
                     PyStr.strip key <> k)
      by (intros l0 key val Hl0; apply Hno; right; exact Hl0).
    destruct (PyStr.has_char "=" l); [| apply (IH _ Hno')].
    destruct (PyStr.split "=" l) as [| a [| b [| c l']]] eqn:E;
      try discriminate.
    destruct (literal_eval (PyStr.strip b)); [| discriminate].
    intros H. rewrite (IH _ Hno' H). apply get_set_other.
    intros Heq. apply (Hno l a b); [left; reflexivity | exact E | auto].
Qed.

(** When a key is given on several lines the last one counts: in the
    dictionary returned, the key of a line that no later line gives again
    holds the value that [ast.literal_eval] read on that line. *)
Theorem parse_text_file_last_line_wins (content : string)
    (l1 l2 : list string) (line key val : string) (d : list (string * V)) :
  PyStr.splitlines content = l1 ++ line :: l2 ->
  PyStr.split "=" line = [key; val] ->
  (forall l key' val', In l l2 -> PyStr.split "=" l = [key'; val'] ->
                       PyStr.strip key' <> PyStr.strip key) ->
  parse_text_file V literal_eval content = Parsed d ->
  exists v, literal_eval (PyStr.strip val) = Some v /\
            PyParams.get (PyStr.strip key) d = Some v.
Proof.
  intros Hlines Hsplit Hlast. unfold parse_text_file.
  rewrite Hlines, parse_lines_app.
  destruct (parse_lines V literal_eval l1 []) as [p1 | |];
    try discriminate.
  simpl. rewrite (split_in_two _ _ _ _ Hsplit), Hsplit.
  destruct (literal_eval (PyStr.strip val)) as [v |]; [| discriminate].
  intros H. exists v. split; [reflexivity |].
  rewrite (parse_lines_keeps _ _ _ _ Hlast H). apply get_set_same.
Qed.

End ParseTextFileFacts.

Lemma parse_text_file_two_equals_witness :
  (2 <= count_char "=" "test_name=a=b")%nat /\
  forall d,
    parse_text_file string (fun x => Some x)
      ("height=3" ++ String "010" "test_name=a=b") <> Parsed d.
Proof.
  split; [simpl; lia |].
  apply (parse_text_file_two_equals string (fun x => Some x)
           ("height=3" ++ String "010" "test_name=a=b") "test_name=a=b").
  - right. left. reflexivity.
  - simpl. lia.
Defined.

Lemma parse_text_file_skips_plain_lines_witness :
  parse_text_file string (fun x => Some x)
    ("lawn one" ++ String "010" (String "010" "height=3")) =
  parse_text_file string (fun x => Some x) "height=3".
Proof.
  exact (parse_text_file_skips_plain_lines string (fun x => Some x)
           ("lawn one" ++ String "010" (String "010" "height=3"))
           "height=3" eq_refl).
Defined.

Lemma parse_text_file_last_line_wins_witness :
  exists v,
    (fun x : string => Some x) (PyStr.strip " 5 ") = Some v /\
    PyParams.get (PyStr.strip "width ")
      [("width", "5")]%string = Some v.
Proof.
  assert (Hno : forall l key' val' : string, In l [] ->
                  PyStr.split "=" l = [key'; val'] ->
                  PyStr.strip key' <> PyStr.strip "width ")
    by (intros l key' val' []).
  exact (parse_text_file_last_line_wins string (fun x => Some x)
           ("width=2" ++ String "010" "width = 5 ")
           ["width=2"%string] [] "width = 5 " "width " " 5 "
           [("width", "5")]%string eq_refl eq_refl Hno eq_refl).
Defined.

(** ** The keys of the dictionary *)

Lemma rstrip_idempotent (s : string) :
  PyStr.rstrip (PyStr.rstrip s) = PyStr.rstrip s.
Proof.
  induction s as [| c s IH]; [reflexivity |].
  simpl. destruct (PyStr.rstrip s) as [| c' r] eqn:E.
  - destruct (PyStr.is_space c) eqn:Ec; [reflexivity |].
    simpl. rewrite Ec. reflexivity.
  - change (PyStr.rstrip (String c (String c' r)))
      with (match PyStr.rstrip (String c' r) with
            | EmptyString =>
                if PyStr.is_space c then EmptyString else String c EmptyString
            | r0 => String c r0
            end).
    rewrite IH. reflexivity.
Qed.

Lemma lstrip_head (s : string) :
  PyStr.lstrip s = EmptyString \/
  exists c r, PyStr.lstrip s = String c r /\ PyStr.is_space c = false.
Proof.
  induction s as [| c s IH]; [left; reflexivity |].
  simpl. destruct (PyStr.is_space c) eqn:E; [exact IH |].
  right. exists c, s. split; [reflexivity | exact E].
Qed.

Lemma rstrip_head (c : ascii) (r : string) :
  PyStr.is_space c = false ->
  exists r', PyStr.rstrip (String c r) = String c r'.
Proof.
  intros Hc. simpl. destruct (PyStr.rstrip r).
  - rewrite Hc. eexists. reflexivity.
  - eexists. reflexivity.
Qed.

Lemma strip_idempotent (s : string) :
  PyStr.strip (PyStr.strip s) = PyStr.strip s.
Proof.
  unfold PyStr.strip. destruct (lstrip_head s) as [-> | [c [r [-> Hc]]]];
    [reflexivity |].
  destruct (rstrip_head c r Hc) as [r' Hr]. rewrite Hr.
  simpl PyStr.lstrip. rewrite Hc, <- Hr. apply rstrip_idempotent.
Qed.

Lemma set_keys {V : Type} (k : string) (v : V) (d : list (string * V)) :
  NoDup (map fst d) ->
  NoDup (map fst (PyParams.set k v d)) /\
  forall k', In k' (map fst (PyParams.set k v d)) <->
             k' = k \/ In k' (map fst d).
Proof.
  induction d as [| [k0 v0] d IH]; simpl; intros Hnd.
  - split; [repeat constructor; intros [] | intros k'; intuition].
  - inversion Hnd as [| x l Hx Hl]; subst.
    destruct (String.eqb_spec k0 k) as [-> | Hne]; simpl.
    + split; [exact Hnd | intros k'; intuition].
    + destruct (IH Hl) as [Hnd' Hin']. split.
      * constructor; [| exact Hnd']. rewrite Hin'. intros [Hk | Hk]; auto.
      * intros k'. rewrite Hin'. intuition.
Qed.

(** The keys of the dictionary returned are distinct, have no blank at
    either end, and each is the part before the '=' of a line of the
    content, stripped. *)
Theorem parse_text_file_keys (V : Type) (literal_eval : string -> option V)
    (content : string) (d : list (string * V)) :
  parse_text_file V literal_eval content = Parsed d ->
  NoDup (map fst d) /\
  forall k, In k (map fst d) ->
    PyStr.strip k = k /\
    exists line key val,
      In line (PyStr.splitlines content) /\
      PyStr.split "=" line = [key; val] /\ k = PyStr.strip key.
Proof.
  unfold parse_text_file.
  assert (H : forall lines p,
    NoDup (map fst p) ->
    (forall k, In k (map fst p) ->
       PyStr.strip k = k /\
       exists line key val,
         In line (PyStr.splitlines content) /\
         PyStr.split "=" line = [key; val] /\ k = PyStr.strip key) ->
    (forall l, In l lines -> In l (PyStr.splitlines content)) ->
    parse_lines V literal_eval lines p = Parsed d ->
    NoDup (map fst d) /\
    forall k, In k (map fst d) ->
      PyStr.strip k = k /\
      exists line key val,
        In line (PyStr.splitlines content) /\
        PyStr.split "=" line = [key; val] /\ k = PyStr.strip key).
  { induction lines as [| l lines IH]; intros p Hnd Hp Hsub; simpl.
    - intros E. injection E as <-. split; assumption.
    - assert (Hsub' : forall l0, In l0 lines ->
                        In l0 (PyStr.splitlines content))
        by (intros l0 H0; apply Hsub; right; exact H0).
      destruct (PyStr.has_char "=" l); [| apply (IH p Hnd Hp Hsub')].
      destruct (PyStr.split "=" l) as [| a [| b [| c l']]] eqn:E;
        try discriminate.
      destruct (literal_eval (PyStr.strip b)) as [v |]; [| discriminate].
      destruct (set_keys (PyStr.strip a) v p Hnd) as [Hnd' Hin'].
      apply IH; trivial.
      intros k Hk. apply Hin' in Hk. destruct Hk as [-> | Hk]; [| auto].
      split; [apply strip_idempotent |].
      exists l, a, b. split; [apply Hsub; left; reflexivity |].
      split; [exact E | reflexivity]. }
  apply H; [constructor | intros k [] | auto].
Qed.

Lemma parse_text_file_keys_witness :
  NoDup (map fst [("width", "5")]%string) /\
  forall k, In k (map fst [("width", "5")]%string) ->
    PyStr.strip k = k /\
    exists line key val,
      In line (PyStr.splitlines ("width=2" ++ String "010" "width = 5 ")) /\
      PyStr.split "=" line = [key; val] /\ k = PyStr.strip key.
Proof.
  exact (parse_text_file_keys string (fun x => Some x)
           ("width=2" ++ String "010" "width = 5 ")
           [("width", "5")]%string eq_refl).
Defined.

(** * Properties of the message trace *)

Lemma rock_warnings_filter (name : string) (h w : Z) (rocks : list Coord) :
  Log.rock_warnings name h w rocks =
  map (Log.rock_warning name h w)
      (filter (fun r => negb (in_grid h w r)) rocks).
Proof.
  unfold Log.rock_warnings.
  assert (H : forall msgs,
    fold_left
      (fun msgs r =>
         let '(row, col) := r in
         if in_grid h w (row, col) then msgs
         else msgs ++ [Log.rock_warning name h w r])
      rocks msgs =
    msgs ++ map (Log.rock_warning name h w)
                (filter (fun r => negb (in_grid h w r)) rocks)).
  { induction rocks as [| [row col] rocks IH]; intros msgs; simpl.
    - rewrite app_nil_r. reflexivity.
    - rewrite IH. destruct (in_grid h w (row, col)); simpl; [reflexivity |].
      rewrite <- app_assoc. reflexivity. }
  apply (H []).
Qed.

Lemma first_occurrences_length (l : list Coord) :
  (length (first_occurrences l) <= length l)%nat.
Proof.
  induction l as [| x l IH]; simpl; [lia |].
  pose proof (filter_length_le (fun y => negb (coord_eqb x y))
                               (first_occurrences l)). lia.
Qed.

Lemma append_inj_l (p a b : string) : (p ++ a = p ++ b)%string -> a = b.
Proof.
  induction p as [| c p IH]; simpl; [auto |].
  intros H. injection H as H. apply IH, H.
Qed.

Lemma py_int_not_w (z : Z) (rest r : string) :
  (Log.py_int z ++ rest)%string <> String "w" r.
Proof.
  unfold Log.py_int. destruct (Z.to_int z) as [u | u]; simpl;
    [destruct u; simpl; discriminate | discriminate].
Qed.

(** A message that is not a warning about a rock: after the tag it does not
    go on as such a warning does. *)
Ltac not_rock_warning H :=
  unfold Log.rock_warning, Log.rocks_summary in H;
  apply append_inj_l in H; cbn [append] in H;
  solve [ discriminate H | apply py_int_not_w in H; exact H ].

(** [__init__] logs its two opening messages, then one warning for each
    entry of [rock_locations] that is off the grid, in the order of the
    input, then its summary message; no other message of [__init__] is a
    warning about a rock. The number that the summary gives as "Rocks
    outside grid disregarded" is the size of the input minus the number of
    valid rocks: it is the number of warnings plus the number of repeats
    among the entries on the grid, so it is the number of rocks off the grid
    only when no entry on the grid is repeated. *)
Theorem rocks_summary_counts_repeats (name : string) (h w : Z)
    (rocks : list Coord) (start : Coord) :
  let valid := PyDict.len (valid_rocks (__init__ name h w rocks start)) in
  let disregarded := Z.of_nat (length rocks) - valid in
  let off_grid := filter (fun r => negb (in_grid h w r)) rocks in
  (exists pre post,
     Log.init_messages name h w rocks start =
       pre ++ map (Log.rock_warning name h w) off_grid
           ++ Log.rocks_summary name valid disregarded :: post /\
     length pre = 2%nat /\
     forall r, ~ In (Log.rock_warning name h w r)
                    (pre ++ Log.rocks_summary name valid disregarded :: post))
  /\
  disregarded =
    Z.of_nat (length off_grid)
    + (Z.of_nat (length (filter (in_grid h w) rocks)) - valid) /\
  Z.of_nat (length off_grid) <= disregarded /\
  (disregarded = Z.of_nat (length off_grid) <->
   NoDup (filter (in_grid h w) rocks)).
Proof.
  intros valid disregarded off_grid. subst valid disregarded off_grid.
  split.
  { unfold Log.init_messages. cbv zeta.
    rewrite !concat_cons, concat_nil, rock_warnings_filter, app_nil_r.
    eexists. eexists. split; [| split].
    - rewrite <- (app_comm_cons _ _ (Log.rocks_summary _ _ _)). reflexivity.
    - reflexivity.
    - intros r Hin. apply in_app_iff in Hin.
      destruct Hin as [[H | [H | []]] | [H | Hin]];
        try (not_rock_warning H).
      apply in_app_iff in Hin.
      destruct Hin as [[H | [H | [H | []]]] | Hin];
        try (not_rock_warning H).
      apply in_app_iff in Hin. destruct Hin as [Hin | Hin].
      + destruct (in_grid h w start); [destruct Hin |].
        destruct Hin as [H | []]. not_rock_warning H.
      + destruct Hin as [H | [H | [H | [H | []]]]]; not_rock_warning H. }
  simpl valid_rocks. unfold PyDict.len.
  pose proof (filter_length (in_grid h w) rocks) as Hsplit.
  pose proof (first_occurrences_length (filter (in_grid h w) rocks)) as Hle.
  rewrite <- filter_rocks_order in Hle.
  split; [lia |]. split; [lia |]. split.
  - intros Heq.
    apply (NoDup_incl_NoDup (filter_rocks_NoDup h w rocks)); [lia |].
    intros c Hc. apply filter_rocks_In in Hc. apply filter_In. tauto.
  - intros Hnd. rewrite filter_rocks_order.
    rewrite (first_occurrences_NoDup _ Hnd). lia.
Qed.

(** The trace of [__init__] for rocks [[7,0],[0,1],[0,1]] on a lawn of one
    row and two columns: one warning, and a summary that counts two. *)
Example rocks_summary_repeated_rock :
  Log.init_messages "T" 1 2 [(7, 0); (0, 1); (0, 1)] (0, 0) =
  [ "--- T: Simulator Config start";
    "--- T: Initialise Grid 1 x 2";
    "--- T: warning: Rock at [7, 0] is outside the 1 x 2 lawn. Ignoring.";
    "--- T: 1 valid Rock positions defined inside grid. 2 Rocks outside grid disregarded";
    "--- T: Initialize Total Grass squares 1";
    "--- T: Initialize Remaining Uncut 0";
    "--- T: Initialize All Grass Cut status False";
    "--- T: Initialise start position at [0, 0]";
    "--- T: Initialise Number of Cells Visited 1 (start position counts 1 already)";
    "--- T: Initialise Number of Moves 0";
    "--- T: Initialise Crash Status False for Reason None" ]%string.
Proof. reflexivity. Qed.

(** ** How many messages a run logs *)

Lemma init_messages_length (name : string) (h w : Z) (rocks : list Coord)
    (start : Coord) :
  length (Log.init_messages name h w rocks start) =
  (10 + length (filter (fun r => negb (in_grid h w r)) rocks)
      + (if in_grid h w start then 0 else 1))%nat.
Proof.
  unfold Log.init_messages. cbv zeta.
  rewrite !concat_cons, concat_nil, rock_warnings_filter.
  rewrite !length_app, length_map.
  destruct (in_grid h w start); cbn [length]; lia.
Qed.

Lemma move_messages_length (s : LawnmowerSim) (mv : string) :
  did_mower_crash s = false ->
  length (Log.move_messages s mv) =
  (if did_mower_crash (fst (move s mv)) then 7 else 9)%nat.
Proof.
  intros Hlive. unfold Log.move_messages. cbv zeta.
  rewrite !concat_cons, concat_nil, !length_app.
  cbn [record_position last_pos valid_rocks grid_height grid_width].
  move_cases s mv; [reflexivity | | reflexivity].
  cbn [fst record_visit record_position did_mower_crash length].
  rewrite Hlive. reflexivity.
Qed.

Lemma loop_messages_cons (s : LawnmowerSim) (mv : string)
    (rest : list string) (step : Z) :
  Log.loop_messages s (mv :: rest) step =
  (Log.nl ++ Log.tag (test_name s) ++ "Move index " ++ Log.py_int step)%string
  :: Log.move_messages s (lower mv)
     ++ (if did_mower_crash (fst (move s (lower mv)))
         then []
         else Log.loop_messages (fst (move s (lower mv))) rest (step + 1)).
Proof.
  cbn [Log.loop_messages]. pose proof (move_returns s (lower mv)) as H.
  destruct (move s (lower mv)) as [s' ok]. cbn [fst snd] in *. subst ok.
  rewrite !concat_cons, concat_nil, app_nil_r.
  destruct (did_mower_crash s'); reflexivity.
Qed.

Lemma loop_messages_length (path : list string) (s : LawnmowerSim)
    (step : Z) :
  did_mower_crash s = false ->
  (length (Log.loop_messages s path step)
   + (if did_mower_crash (run_path s path) then 2 else 0)
   = 10 * length (path_states s path))%nat.
Proof.
  revert s step. induction path as [| mv rest IH]; intros s step Hlive.
  - cbn [Log.loop_messages run_path path_states length].
    rewrite Hlive. reflexivity.
  - rewrite loop_messages_cons, run_path_cons, path_states_cons.
    cbn [length]. rewrite length_app, (move_messages_length _ _ Hlive).
    destruct (did_mower_crash (fst (move s (lower mv)))) eqn:E.
    + rewrite E. cbn [length]. lia.
    + specialize (IH _ (step + 1) E).
      destruct (did_mower_crash (run_path (fst (move s (lower mv))) rest));
        cbn [length]; lia.
Qed.

(** The trace of a run has ten messages from [__init__], one more for each
    rock off the grid and one more for a start off the grid; then ten for
    each move made, and two that close the run of a path when it did not
    crash (the crash-causing move logs two fewer, which the closing two make
    up for). *)
Theorem run_messages_count (name : string) (h w : Z) (rocks : list Coord)
    (start : Coord) (path : list string) :
  let s0 := __init__ name h w rocks start in
  length (Log.run_messages name h w rocks start path) =
  (10 + length (filter (fun r => negb (in_grid h w r)) rocks)
      + (if in_grid h w start then 0 else 1)
      + 10 * length (path_states s0 path)
      + (if did_mower_crash (fst (execute_path s0 path)) then 0 else 2))%nat.
Proof.
  intros s0. unfold Log.run_messages, Log.execute_path_messages, execute_path.
  cbv zeta. cbn [fst]. fold s0.
  rewrite !concat_cons, concat_nil, app_nil_r.
  rewrite !length_app, init_messages_length. cbn [length].
  pose proof (loop_messages_length path s0 0 eq_refl) as Hloop.
  destruct (did_mower_crash (run_path s0 path)); lia.
Qed.

(** ** The tag of the messages *)

Lemma tagged_plain (name rest : string) :
  Log.tagged name (Log.tag name ++ rest).
Proof. exists rest. left. reflexivity. Qed.

Lemma tagged_nl (name rest : string) :
  Log.tagged name (Log.nl ++ Log.tag name ++ rest).
Proof. exists rest. right. reflexivity. Qed.

Ltac all_tagged :=
  repeat (apply Forall_cons || apply Forall_nil
          || apply tagged_plain || apply tagged_nl).

Lemma init_messages_tagged (name : string) (h w : Z) (rocks : list Coord)
    (start : Coord) :
  Forall (Log.tagged name) (Log.init_messages name h w rocks start).
Proof.
  unfold Log.init_messages. cbv zeta.
  rewrite !concat_cons, concat_nil, rock_warnings_filter, app_nil_r.
  apply Forall_app; split; [all_tagged |].
  apply Forall_app; split.
  { apply Forall_forall. intros m Hm. apply in_map_iff in Hm.
    destruct Hm as [r [<- _]]. apply tagged_plain. }
  apply Forall_app; split; [unfold Log.rocks_summary; all_tagged |].
  apply Forall_app; split; [| all_tagged].
  destruct (in_grid h w start); all_tagged.
Qed.

Lemma move_messages_tagged (s : LawnmowerSim) (mv : string) :
  Forall (Log.tagged (test_name s)) (Log.move_messages s mv).
Proof.
  unfold Log.move_messages. cbv zeta.
  rewrite !concat_cons, concat_nil, app_nil_r.
  apply Forall_app; split; [all_tagged |].
  apply Forall_app; split.
  - destruct (PyDict.contains _ _); [all_tagged |].
    destruct (negb _); [all_tagged |].
    destruct (all_grass_cut _); all_tagged.
  - destruct (did_mower_crash _); all_tagged.
Qed.

Lemma loop_messages_tagged (path : list string) (s : LawnmowerSim)
    (step : Z) :
  Forall (Log.tagged (test_name s)) (Log.loop_messages s path step).
Proof.
  revert s step. induction path as [| mv rest IH]; intros s step.
  - constructor.
  - rewrite loop_messages_cons. constructor; [apply tagged_nl |].
    apply Forall_app. split; [apply move_messages_tagged |].
    destruct (did_mower_crash (fst (move s (lower mv)))); [constructor |].
    destruct (move_frame s (lower mv)) as [Hname _].
    rewrite <- Hname. apply IH.
Qed.

(** Every message of a run carries the tag, after a line feed or not. *)
Lemma run_messages_all_tagged (name : string) (h w : Z) (rocks : list Coord)
    (start : Coord) (path : list string) :
  Forall (Log.tagged name) (Log.run_messages name h w rocks start path).
Proof.
  unfold Log.run_messages, Log.execute_path_messages. cbv zeta.
  rewrite !concat_cons, concat_nil, app_nil_r.
  assert (Hname : test_name (run_path (__init__ name h w rocks start) path)
                  = name).
  { apply (run_path_inv (fun x => test_name x = name)); [| reflexivity].
    intros x mv Hx. destruct (move_frame x mv) as [Hn _]. congruence. }
  rewrite Hname.
  apply Forall_app. split; [apply init_messages_tagged |].
  apply Forall_app. split.
  - apply (loop_messages_tagged path (__init__ name h w rocks start) 0).
  - destruct (negb _); all_tagged.
Qed.

(** ** The messages that start with a line feed *)

Lemma line_fed_plain (name rest : string) :
  Log.line_fed (Log.tag name ++ rest) = false.
Proof. reflexivity. Qed.

Lemma line_fed_nl (rest : string) : Log.line_fed (Log.nl ++ rest) = true.
Proof. reflexivity. Qed.

Lemma filter_line_fed_plain (name : string) (l : list string) :
  Forall (Log.plain name) l -> filter Log.line_fed l = [].
Proof.
  induction 1 as [| m l [rest ->] Hl IH]; [reflexivity |].
  cbn [filter]. rewrite line_fed_plain. exact IH.
Qed.

Ltac all_plain :=
  repeat (apply Forall_cons || apply Forall_nil
          || (eexists; reflexivity)).

Lemma init_messages_plain (name : string) (h w : Z) (rocks : list Coord)
    (start : Coord) :
  Forall (Log.plain name) (Log.init_messages name h w rocks start).
Proof.
  unfold Log.init_messages. cbv zeta.
  rewrite !concat_cons, concat_nil, rock_warnings_filter, app_nil_r.
  apply Forall_app; split; [all_plain |].
  apply Forall_app; split.
  { apply Forall_forall. intros m Hm. apply in_map_iff in Hm.
    destruct Hm as [r [<- _]]. eexists. reflexivity. }
  apply Forall_app; split; [unfold Log.rocks_summary; all_plain |].
  apply Forall_app; split; [| all_plain].
  destruct (in_grid h w start); all_plain.
Qed.

Lemma move_messages_plain (s : LawnmowerSim) (mv : string) :
  Forall (Log.plain (test_name s)) (Log.move_messages s mv).
Proof.
  unfold Log.move_messages. cbv zeta.
  rewrite !concat_cons, concat_nil, app_nil_r.
  apply Forall_app; split; [all_plain |].
  apply Forall_app; split.
  - destruct (PyDict.contains _ _); [all_plain |].
    destruct (negb _); [all_plain |].
    destruct (all_grass_cut _); all_plain.
  - destruct (did_mower_crash _); all_plain.
Qed.

Lemma loop_messages_line_fed (path : list string) (s : LawnmowerSim)
    (step : Z) :
  filter Log.line_fed (Log.loop_messages s path step) =
  map (fun i => Log.move_index_message (test_name s) (step + Z.of_nat i))
      (seq 0 (length (path_states s path))).
Proof.
  revert s step. induction path as [| mv rest IH]; intros s step.
  - reflexivity.
  - rewrite loop_messages_cons, path_states_cons.
    cbn [filter length seq map].
    change (Log.line_fed
              (Log.nl ++ Log.tag (test_name s) ++ "Move index "
               ++ Log.py_int step)) with true.
    cbv iota. rewrite Z.add_0_r. unfold Log.move_index_message at 1. f_equal.
    rewrite filter_app, (filter_line_fed_plain _ _ (move_messages_plain _ _)).
    cbn [app].
    destruct (did_mower_crash (fst (move s (lower mv)))); [reflexivity |].
    rewrite IH, <- seq_shift, map_map.
    destruct (move_frame s (lower mv)) as [Hname _]. rewrite Hname.
    apply map_ext. intros i. f_equal. lia.
Qed.

(** Every message of the trace of a run starts with "--- ", the test name
    and ": ", either at once or after a line feed; and the messages that
    start with a line feed are, in order, the message that opens each move
    made ("Move index 0", "Move index 1", ...) and then the message that
    closes the path, which tells the crash or the success. *)
Theorem run_messages_line_feeds (name : string) (h w : Z)
    (rocks : list Coord) (start : Coord) (path : list string) :
  let s0 := __init__ name h w rocks start in
  Forall (fun m => if Log.line_fed m
                   then exists rest,
                          m = (Log.nl ++ Log.tag name ++ rest)%string
                   else Log.plain name m)
         (Log.run_messages name h w rocks start path) /\
  filter Log.line_fed (Log.run_messages name h w rocks start path) =
    map (fun i => Log.move_index_message name (Z.of_nat i))
        (seq 0 (length (path_states s0 path)))
    ++ [ (Log.nl ++ Log.tag name
          ++ (if did_mower_crash (fst (execute_path s0 path))
              then "Simulator Fail due Crash. Move abort"
              else "Simulator Success. All Moves done"))%string ].
Proof.
  intros s0. split.
  - pose proof (run_messages_all_tagged name h w rocks start path) as Ht.
    apply Forall_forall. intros m Hm.
    rewrite Forall_forall in Ht. destruct (Ht m Hm) as [rest [-> | ->]].
    + rewrite line_fed_plain. exists rest. reflexivity.
    + rewrite line_fed_nl. exists rest. reflexivity.
  - unfold Log.run_messages, Log.execute_path_messages, execute_path.
    cbv zeta. cbn [fst]. fold s0.
    rewrite !concat_cons, concat_nil, app_nil_r, !filter_app.
    rewrite (filter_line_fed_plain _ _ (init_messages_plain name h w rocks
                                          start)).
    rewrite (loop_messages_line_fed path s0 0).
    assert (Hname : test_name (run_path s0 path) = name).
    { apply (run_path_inv (fun x => test_name x = name)); [| reflexivity].
      intros x mv Hx. destruct (move_frame x mv) as [Hn _]. congruence. }
    rewrite Hname. cbn [app]. f_equal.
    destruct (did_mower_crash (run_path s0 path)); reflexivity.
Qed.
